(** * SEC filings downloader: a shallow embedding of
    [sec_filings_downloader.py] and the properties of its selection,
    extraction and persistence logic.

    Conventions of the embedding.
    - Python [str] values are [string]s; the character-class operations
      ([lower], [upper], [strip], [int]) are modelled on the ASCII range.
    - Python [int] values are [Z]; [//] is [Z.div] (both round down).
    - [None] is [option]'s [None]; a raised exception is [Raise e].
    - The network, the HTML and JSON parsers and the file system are
      external collaborators: they appear as fields of an environment
      record [Env] and every call is recorded in the [World].
    - Diagnostic [print] calls are not modelled.
    - Integers handed in by the caller (years, quarters) and decoded from
      JSON are taken to be printable by [str], that is below CPython's
      limit of 4300 digits. *)

From Stdlib Require Import ZArith List String Ascii Bool Lia.
From Stdlib Require Import Numbers.DecimalString.
From stdpp Require Import gmap strings.
Import ListNotations.

Local Open Scope string_scope.
Local Open Scope Z_scope.

(* ===================================================================== *)
(** ** Python string primitives *)
(* ===================================================================== *)

Module Py.

(** [str.isspace] on the ASCII range: TAB..CR, FS..US and the blank. *)
Definition is_space (c : ascii) : bool :=
  let n := nat_of_ascii c in
  ((9 <=? n)%nat && (n <=? 13)%nat) || ((28 <=? n)%nat && (n <=? 32)%nat).

Definition lower_char (c : ascii) : ascii :=
  let n := nat_of_ascii c in
  if ((65 <=? n)%nat && (n <=? 90)%nat) then ascii_of_nat (n + 32) else c.

Definition upper_char (c : ascii) : ascii :=
  let n := nat_of_ascii c in
  if ((97 <=? n)%nat && (n <=? 122)%nat) then ascii_of_nat (n - 32) else c.

(** [s.lower()] and [s.upper()] *)
Fixpoint lower (s : string) : string :=
  match s with
  | EmptyString => EmptyString
  | String c r => String (lower_char c) (lower r)
  end.

Fixpoint upper (s : string) : string :=
  match s with
  | EmptyString => EmptyString
  | String c r => String (upper_char c) (upper r)
  end.

(** [len(s)] *)
Definition len (s : string) : Z := Z.of_nat (String.length s).

(** [s.startswith(p)] *)
Fixpoint startswith (p s : string) : bool :=
  match p, s with
  | EmptyString, _ => true
  | String a p', String b s' => Ascii.eqb a b && startswith p' s'
  | String _ _, EmptyString => false
  end.

(** [sub in s] *)
Fixpoint contains (sub s : string) : bool :=
  startswith sub s ||
  match s with
  | EmptyString => false
  | String _ r => contains sub r
  end.

(** [s.split(sep)] for a one-character separator: never empty. *)
Fixpoint split (sep : ascii) (s : string) : list string :=
  match s with
  | EmptyString => [EmptyString]
  | String c r =>
      if Ascii.eqb c sep then EmptyString :: split sep r
      else match split sep r with
           | h :: t => String c h :: t
           | [] => [String c EmptyString]
           end
  end.

(** [sep.join(parts)] *)
Fixpoint join (sep : string) (parts : list string) : string :=
  match parts with
  | [] => EmptyString
  | [p] => p
  | p :: rest => p ++ sep ++ join sep rest
  end.

(** [s.rstrip()], [s.lstrip()], [s.strip()] *)
Fixpoint rstrip (s : string) : string :=
  match s with
  | EmptyString => EmptyString
  | String c r =>
      match rstrip r with
      | EmptyString => if is_space c then EmptyString else String c EmptyString
      | r' => String c r'
      end
  end.

Fixpoint lstrip (s : string) : string :=
  match s with
  | EmptyString => EmptyString
  | String c r => if is_space c then lstrip r else s
  end.

Definition strip (s : string) : string := lstrip (rstrip s).

(** [s[:n]] and [s[i:j]] for non-negative literal bounds. *)
Definition slice_to (n : nat) (s : string) : string := String.substring 0 n s.
Definition slice (i j : nat) (s : string) : string := String.substring i (j - i) s.

(** [s.lstrip('0')] *)
Fixpoint lstrip_zeros (s : string) : string :=
  match s with
  | EmptyString => EmptyString
  | String c r => if Ascii.eqb c "0" then lstrip_zeros r else s
  end.

(** The line feed and [s.replace('\n\n\n', '\n\n')]: occurrences are
    replaced from the left, without overlap. *)
Definition nl : ascii := ascii_of_nat 10.
Definition NL : string := String nl EmptyString.
Definition NL3 : string := String nl (String nl (String nl EmptyString)).

Fixpoint replace_nl3 (s : string) : string :=
  match s with
  | EmptyString => EmptyString
  | String c1 r1 =>
      match r1 with
      | String c2 (String c3 r3) =>
          if Ascii.eqb c1 nl && Ascii.eqb c2 nl && Ascii.eqb c3 nl
          then String nl (String nl (replace_nl3 r3))
          else String c1 (replace_nl3 r1)
      | _ => String c1 (replace_nl3 r1)
      end
  end.

(** [s.replace('-', '')] *)
Fixpoint remove_char (x : ascii) (s : string) : string :=
  match s with
  | EmptyString => EmptyString
  | String c r => if Ascii.eqb c x then remove_char x r else String c (remove_char x r)
  end.

Definition digit_val (c : ascii) : option Z :=
  let n := nat_of_ascii c in
  if ((48 <=? n)%nat && (n <=? 57)%nat) then Some (Z.of_nat n - 48) else None.

(** The digit part of an integer literal: decimal digits, with single
    underscores allowed between digits. *)
Fixpoint digits (s : string) (acc : Z) (after_digit : bool) : option Z :=
  match s with
  | EmptyString => if after_digit then Some acc else None
  | String c r =>
      if Ascii.eqb c "_" then
        if after_digit then digits r acc false else None
      else match digit_val c with
           | Some d => digits r (10 * acc + d) true
           | None => None
           end
  end.

(** The white space that [int] skips around a literal: TAB..CR and the
    blank ([FS..US], which [strip] removes, make [int] fail). *)
Definition is_space_c (c : ascii) : bool :=
  let n := nat_of_ascii c in
  ((9 <=? n)%nat && (n <=? 13)%nat) || (n =? 32)%nat.

Fixpoint rstrip_c (s : string) : string :=
  match s with
  | EmptyString => EmptyString
  | String c r =>
      match rstrip_c r with
      | EmptyString => if is_space_c c then EmptyString else String c EmptyString
      | r' => String c r'
      end
  end.

Fixpoint lstrip_c (s : string) : string :=
  match s with
  | EmptyString => EmptyString
  | String c r => if is_space_c c then lstrip_c r else s
  end.

(** [int(s)] on a string: surrounding white space is skipped, one sign
    is allowed; [None] stands for the [ValueError]. The limit on the
    number of digits is the separate guard of [int_limited]. *)
Definition int (s : string) : option Z :=
  match lstrip_c (rstrip_c s) with
  | EmptyString => None
  | String c r =>
      if Ascii.eqb c "-" then option_map Z.opp (digits r 0 false)
      else if Ascii.eqb c "+" then digits r 0 false
      else digits (String c r) 0 false
  end.

(** CPython refuses to convert a string with more than 4300 digits
    ([sys.int_max_str_digits]): [int_limited] is [int] under that guard.
    A string of at most 4300 characters is never refused, so the guard
    only matters where the argument is not a short slice. *)
Definition MAX_STR_DIGITS : nat := Z.to_nat 4300.

Fixpoint count_digits (s : string) : nat :=
  match s with
  | EmptyString => O
  | String c r =>
      match digit_val c with
      | Some _ => S (count_digits r)
      | None => count_digits r
      end
  end.

Definition int_limited (s : string) : option Z :=
  if (MAX_STR_DIGITS <? count_digits s)%nat then None else int s.

(** [str(n)] for an integer. *)
Definition str (n : Z) : string := NilZero.string_of_int (Z.to_int n).

Fixpoint zeros (n : nat) : string :=
  match n with
  | O => EmptyString
  | S k => String "0" (zeros k)
  end.

(** [s.zfill(width)]: zeros go after a leading sign. *)
Definition zfill (width : nat) (s : string) : string :=
  let pad := zeros (width - String.length s) in
  match s with
  | EmptyString => pad
  | String c r =>
      if Ascii.eqb c "-" || Ascii.eqb c "+" then String c (pad ++ r) else pad ++ s
  end.

(** A pattern whose last character is not white space. *)
Fixpoint ends_nonspace (m : string) : bool :=
  match m with
  | EmptyString => false
  | String a EmptyString => negb (is_space a)
  | String _ m' => ends_nonspace m'
  end.

(** Truth value of an [Optional[str]]: [None] and [''] are false. *)
Definition truthy (o : option string) : bool :=
  match o with
  | Some s => negb (String.eqb s "")
  | None => false
  end.

End Py.

(* ===================================================================== *)
(** ** Document extractor: choice of the primary document
       ([_fetch_filing_from_edgar], the loop over the directory links) *)
(* ===================================================================== *)

Module Extractor.

(** [href.split('/')[-1].lower()] *)
Definition filename_of (href : string) : string :=
  Py.lower (List.last (Py.split "/" href) "").

(** [href and '/Archives/edgar' in href and '.htm' in href.lower()] *)
Definition is_archive_htm (href : string) : bool :=
  negb (String.eqb href "")
  && Py.contains "/Archives/edgar" href
  && Py.contains ".htm" (Py.lower href).

(** ['index' not in filename and '/search' not in href] *)
Definition is_listed (filename href : string) : bool :=
  negb (Py.contains "index" filename) && negb (Py.contains "/search" href).

(** ['exhibit' not in filename and
     not (filename.startswith('r') and len(filename) < 10)] *)
Definition is_preferred (filename : string) : bool :=
  negb (Py.contains "exhibit" filename)
  && negb (Py.startswith "r" filename && (Py.len filename <? 10)).

(** State of the loop: [main_doc] and [all_htm_files]. *)
Definition scan_state : Type := option string * list (string * string).

(** One iteration of [for link in soup.find_all('a')]; [href] is
    [link.get('href', '')]. *)
Definition scan_link (st : scan_state) (href : string) : scan_state :=
  let '(main_doc, all_htm_files) := st in
  if is_archive_htm href then
    let filename := filename_of href in
    if is_listed filename href then
      let all_htm_files := (all_htm_files ++ [(filename, href)])%list in
      if is_preferred filename then
        if negb (Py.truthy main_doc) then (Some href, all_htm_files)
        else (main_doc, all_htm_files)
      else (main_doc, all_htm_files)
    else st
  else st.

Definition scan_links (hrefs : list string) : scan_state :=
  fold_left scan_link hrefs (None, []).

(** [for fname, fpath in all_htm_files: if fname == 'r1.htm': ...; break] *)
Fixpoint find_r1 (main_doc : option string) (files : list (string * string))
  : option string :=
  match files with
  | [] => main_doc
  | (fname, fpath) :: rest =>
      if String.eqb fname "r1.htm" then Some fpath else find_r1 main_doc rest
  end.

(** Lines 124-149: the selected [main_doc], [None] for the early
    [return None]. *)
Definition select_main_doc (hrefs : list string) : option string :=
  let '(main_doc, all_htm_files) := scan_links hrefs in
  let main_doc :=
    match all_htm_files with
    | first :: _ =>
        if negb (Py.truthy main_doc) then
          let main_doc := find_r1 main_doc all_htm_files in
          if negb (Py.truthy main_doc) then Some (snd first) else main_doc
        else main_doc
    | [] => main_doc
    end in
  if negb (Py.truthy main_doc) then None else main_doc.

(** *** The selection rule in words *)

(** Candidates as the code filters them: links into the archive whose
    lowercased target contains [.htm], without [index] in the file name
    and without [/search] in the path. *)
Definition candidate (href : string) : bool :=
  is_archive_htm href && is_listed (filename_of href) href.

(** Candidates filtered on the file name alone: the lowercased file
    name has to contain [.htm]. *)
Definition candidate_by_filename (href : string) : bool :=
  negb (String.eqb href "")
  && Py.contains "/Archives/edgar" href
  && Py.contains ".htm" (filename_of href)
  && is_listed (filename_of href) href.

Definition preferred (href : string) : bool := is_preferred (filename_of href).
Definition named_r1 (href : string) : bool := String.eqb (filename_of href) "r1.htm".

(** First preferred candidate, else the first candidate named [r1.htm],
    else the first candidate, else failure. *)
Definition select_rule (cand : string -> bool) (hrefs : list string) : option string :=
  let cs := List.filter cand hrefs in
  match List.find preferred cs with
  | Some h => Some h
  | None =>
      match List.find named_r1 cs with
      | Some h => Some h
      | None => List.head cs
      end
  end.

(** *** Line-level cleanup of the visible text (lines 173-200) *)

Definition START_MARKER : string := "UNITED STATES".

Definition XBRL_PREFIXES : list string :=
  ["aapl:"; "us-gaap:"; "xbrli:"; "iso4217:"; "usfr:"; "exch:"; "dei:"].

(** ['http' in line and ('fasb.org' in line or
     'sec.gov/Archives/edgar/xmlbrl' in line)] *)
Definition is_schema_ref (line : string) : bool :=
  Py.contains "http" line
  && (Py.contains "fasb.org" line
      || Py.contains "sec.gov/Archives/edgar/xmlbrl" line).

(** [len(line.strip()) < 100 and ':' in line and ' ' not in line] and
    [any(line.startswith(prefix) for prefix in [...])] *)
Definition is_bare_tag (line : string) : bool :=
  (Py.len (Py.strip line) <? 100)
  && Py.contains ":" line
  && negb (Py.contains " " line)
  && List.existsb (fun prefix => Py.startswith prefix line) XBRL_PREFIXES.

(** The part of the loop body after the start marker has been seen. *)
Definition keep_line (lines : list string) (line : string) : list string :=
  if is_schema_ref line then lines
  else if is_bare_tag line then lines
  else (lines ++ [line])%list.

(** State of the loop: [found_start] and [lines]. *)
Definition clean_state : Type := bool * list string.

(** One iteration of [for line in text.split('\n')]. *)
Definition clean_line (st : clean_state) (raw : string) : clean_state :=
  let '(found_start, lines) := st in
  let line := Py.rstrip raw in
  if String.eqb line "" || (Py.len (Py.strip line) =? 0) then st
  else if negb found_start then
    if Py.contains START_MARKER line then (true, keep_line lines line)
    else st
  else (found_start, keep_line lines line).

Definition clean_lines (raws : list string) : list string :=
  snd (fold_left clean_line raws (false, [])).

(** [while '\n\n\n' in cleaned: cleaned = cleaned.replace(...)]; every
    round shortens the text, so [String.length cleaned] rounds are
    enough (lemma [collapse_stable]). *)
Fixpoint collapse_loop (fuel : nat) (cleaned : string) : string :=
  match fuel with
  | O => cleaned
  | S fuel' =>
      if Py.contains Py.NL3 cleaned
      then collapse_loop fuel' (Py.replace_nl3 cleaned)
      else cleaned
  end.

Definition collapse (cleaned : string) : string :=
  collapse_loop (String.length cleaned) cleaned.

(** Lines 173-200: from the visible text to the cleaned text. *)
Definition clean_text (text : string) : string :=
  collapse (Py.join Py.NL (clean_lines (Py.split Py.nl text))).

(** Lines 202-205: [Some cleaned] above the threshold, else [None]. *)
Definition MIN_CONTENT : Z := 5000.

Definition content_gate (cleaned : string) : option string :=
  if Py.len cleaned >? MIN_CONTENT then Some cleaned else None.

End Extractor.


(* ===================================================================== *)
(** ** Exceptions, external collaborators and the world *)
(* ===================================================================== *)

(** The exceptions that can leave a method of the downloader. *)
Inductive exn : Type :=
| ValueError
| AttributeError
| OSError.

Inductive res (A : Type) : Type :=
| Ret (a : A)
| Raise (e : exn).
Arguments Ret {A} a.
Arguments Raise {A} e.

(** What the program does to the outside, in order. *)
Inductive event : Type :=
| Sleep                                    (* time.sleep(REQUEST_DELAY) *)
| Get (url : string)                       (* requests.get(url, headers=HEADERS, ...) *)
| Mkdir (path : string)                    (* path.mkdir(parents=True, exist_ok=True) *)
| WriteText (path : string) (text : string). (* open(path, 'w') and f.write(text) *)

(** The [filings.recent] object of a submissions document: four
    parallel arrays, a missing one being the empty array. *)
Record Recent : Type := {
  form : list string;
  accessionNumber : list string;
  filingDate : list string;
  reportDate : list string
}.

(** The external collaborators.
    - [http_get past url]: [None] when [requests.get] raises, else the
      status code and the body; it may depend on what happened before.
    - [json_tickers body]: [response.json()] read as the ticker table,
      [None] when decoding or reading an entry raises.
    - [json_recent body]: [response.json()] read down to
      [filings.recent], [None] when decoding raises or there is no
      [form] array.
    - [soup_hrefs body]: [link.get('href', '')] for every [a] element of
      the parsed page; [soup_text body]: the visible text after the
      markup elements are removed and the prefixed ones unwrapped
      (lines 160-171); [None] when the parser raises.
    - [path_new] and [path_join]: [Path(s)] and [p / s] of [pathlib], a
      path being represented by its string.
    - [fs_ok past e]: whether the file-system operation [e] succeeds;
      [fs_error past e]: the exception it raises when it does not (an
      [OSError], or the [ValueError] of a name with a null byte). *)
Record Env : Type := {
  http_get : list event -> string -> option (Z * string);
  json_tickers : string -> option (list (string * Z));
  json_recent : string -> option Recent;
  soup_hrefs : string -> option (list string);
  soup_text : string -> option string;
  path_new : string -> string;
  path_join : string -> string -> string;
  fs_ok : list event -> event -> bool;
  fs_error : list event -> event -> exn
}.

(** One filing of the index, as [_get_filings_metadata] builds it. *)
Record Filing : Type := {
  accession_number : string;
  filing_date : string;
  report_date : string;
  form_type : string
}.

(** The fields of a [SECFilingDownloader] object. *)
Record Downloader : Type := {
  output_folder_10k : option string;
  output_folder_10q : option string;
  cik_lookup : gmap string string
}.

(** The object and the trace of what it did so far. *)
Record World : Type := {
  self : Downloader;
  trace : list event
}.

Definition log (e : event) (w : World) : World :=
  {| self := self w; trace := (trace w ++ [e])%list |}.

Definition set_cik_lookup (m : gmap string string) (w : World) : World :=
  {| self := {| output_folder_10k := output_folder_10k (self w);
                output_folder_10q := output_folder_10q (self w);
                cik_lookup := m |};
     trace := trace w |}.

(** [requests.get(url, ...)]: the answer and the world after the call. *)
Definition get (env : Env) (url : string) (w : World) : option (Z * string) * World :=
  (http_get env (trace w) url, log (Get url) w).

(** [response.raise_for_status()] raises on 4xx and 5xx. *)
Definition raise_for_status (status_code : Z) : bool :=
  (400 <=? status_code) && (status_code <? 600).

Definition SEC_EDGAR_CIK_LOOKUP : string := "https://www.sec.gov/files/company_tickers.json".

(* ===================================================================== *)
(** ** The class [SECFilingDownloader] *)
(* ===================================================================== *)

Module SECFilingDownloader.

(** *** [__init__] *)

(** Lines 24-32: the two output roots, or the [ValueError]. *)
Definition init_folders (env : Env)
  (output_folder_10k output_folder_10q output_folder : option string)
  : res (option string * option string) :=
  match output_folder_10k, output_folder_10q, output_folder with
  | None, None, None => Raise ValueError
  | None, None, Some shared =>
      Ret (Some (path_new env shared), Some (path_new env shared))
  | _, _, _ =>
      Ret (if Py.truthy output_folder_10k
           then option_map (path_new env) output_folder_10k else None,
           if Py.truthy output_folder_10q
           then option_map (path_new env) output_folder_10q else None)
  end.

(** [folder.mkdir(parents=True, exist_ok=True)] under [if folder:]; a
    [Path] object is always true, so only [None] skips the call. *)
Definition mkdir_root (env : Env) (folder : option string) (tr : list event)
  : res unit * list event :=
  match folder with
  | None => (Ret tt, tr)
  | Some p =>
      (if fs_ok env tr (Mkdir p) then Ret tt else Raise (fs_error env tr (Mkdir p)),
       (tr ++ [Mkdir p])%list)
  end.

(** [_load_cik_lookup]: every failure leaves an empty table. *)
Definition _load_cik_lookup (env : Env) (w : World) : World :=
  let '(response, w) := get env SEC_EDGAR_CIK_LOOKUP w in
  match response with
  | None => set_cik_lookup ∅ w
  | Some (status_code, body) =>
      if raise_for_status status_code then set_cik_lookup ∅ w
      else match json_tickers env body with
           | None => set_cik_lookup ∅ w
           | Some entries =>
               set_cik_lookup
                 (fold_left
                    (fun (table : gmap string string) (entry : string * Z) =>
                       let ticker := Py.upper (fst entry) in
                       let cik := Py.zfill 10 (Py.str (snd entry)) in
                       <[ticker := cik]> table)
                    entries (cik_lookup (self w)))
                 w
           end
  end.

Definition __init__ (env : Env)
  (output_folder_10k output_folder_10q output_folder : option string)
  (tr : list event) : res World :=
  match init_folders env output_folder_10k output_folder_10q output_folder with
  | Raise e => Raise e
  | Ret (folder_10k, folder_10q) =>
      match mkdir_root env folder_10k tr with
      | (Raise e, _) => Raise e
      | (Ret _, tr) =>
          match mkdir_root env folder_10q tr with
          | (Raise e, _) => Raise e
          | (Ret _, tr) =>
              Ret (_load_cik_lookup env
                     {| self := {| output_folder_10k := folder_10k;
                                   output_folder_10q := folder_10q;
                                   cik_lookup := ∅ |};
                        trace := tr |})
          end
      end
  end.

(** *** [_get_cik] *)

Definition is_digit (c : ascii) : bool :=
  match Py.digit_val c with Some _ => true | None => false end.

Fixpoint take_digits (s : string) : string :=
  match s with
  | EmptyString => EmptyString
  | String c r => if is_digit c then String c (take_digits r) else EmptyString
  end.

(** [re.search(r'CIK=(\d+)', text)]: group 1 of the leftmost match. *)
Fixpoint search_cik (text : string) : option string :=
  match text with
  | EmptyString => None
  | String _ r =>
      let group1 := take_digits (String.substring 4 (String.length text) text) in
      if Py.startswith "CIK=" text && negb (String.eqb group1 "")
      then Some group1 else search_cik r
  end.

Definition search_url (ticker : string) : string :=
  "https://www.sec.gov/cgi-bin/browse-edgar?action=getcompany&company=" ++ ticker
  ++ "&type=&dateb=&owner=exclude&count=100&search_text=&CIK=&myHID=".

Definition _get_cik (env : Env) (ticker : string) (w : World) : option string * World :=
  let ticker_upper := Py.upper ticker in
  match cik_lookup (self w) !! ticker_upper with
  | Some cik => (Some cik, w)
  | None =>
      let '(response, w) := get env (search_url ticker) w in
      match response with
      | None => (None, w)
      | Some (status_code, text) =>
          if raise_for_status status_code then (None, w)
          else match search_cik text with
               | None => (None, w)
               | Some group1 =>
                   match Py.int_limited group1 with
                   | None => (None, w)
                   | Some n =>
                       let cik := Py.zfill 10 (Py.str n) in
                       (Some cik,
                        set_cik_lookup (<[ticker_upper := cik]> (cik_lookup (self w))) w)
                   end
               end
      end
  end.

(** *** [_get_filings_metadata] *)

Definition SEC_EDGAR_SUBMISSIONS (cik : string) : string :=
  "https://data.sec.gov/submissions/CIK" ++ cik ++ ".json".

(** [for i, form in enumerate(forms)], from index [i] on. *)
Fixpoint collect_filings (filing_type : string) (recent : Recent)
  (i : nat) (forms : list string) : list Filing :=
  match forms with
  | [] => []
  | form :: rest =>
      ((if String.eqb form filing_type then
          match accessionNumber recent !! i, filingDate recent !! i,
                reportDate recent !! i with
          | Some a, Some fd, Some rd =>
              [ {| accession_number := a; filing_date := fd;
                   report_date := rd; form_type := form |} ]
          | _, _, _ => []
          end
        else [])
       ++ collect_filings filing_type recent (S i) rest)%list
  end.

Definition _get_filings_metadata (env : Env) (cik filing_type : string) (w : World)
  : list Filing * World :=
  let '(response, w) := get env (SEC_EDGAR_SUBMISSIONS cik) w in
  match response with
  | None => ([], w)
  | Some (status_code, body) =>
      if raise_for_status status_code then ([], w)
      else match json_recent env body with
           | None => ([], w)
           | Some recent => (collect_filings filing_type recent 0 (form recent), w)
           end
  end.

(** *** [_fetch_filing_from_edgar] *)

Definition dir_url (cik accession_number : string) : string :=
  let cik_num :=
    match Py.lstrip_zeros cik with
    | EmptyString => "0"
    | s => s
    end in
  let accession_clean := Py.remove_char "-" accession_number in
  "https://www.sec.gov/Archives/edgar/data/" ++ cik_num ++ "/" ++ accession_clean ++ "/".

Definition main_doc_url (main_doc : string) : string :=
  if Py.startswith "/" main_doc then "https://www.sec.gov" ++ main_doc else main_doc.

(** Lines 111-171: from the request to the visible text of the primary
    document; [None] for every [return None] and every exception. *)
Definition fetch_visible_text (env : Env) (cik accession_number : string) (w : World)
  : option string * World :=
  let w := log Sleep w in
  let '(response, w) := get env (dir_url cik accession_number) w in
  match response with
  | None => (None, w)
  | Some (status_code, listing) =>
      if negb (status_code =? 200) then (None, w)
      else match soup_hrefs env listing with
           | None => (None, w)
           | Some hrefs =>
               match Extractor.select_main_doc hrefs with
               | None => (None, w)
               | Some main_doc =>
                   let '(doc_response, w) := get env (main_doc_url main_doc) w in
                   match doc_response with
                   | None => (None, w)
                   | Some (doc_status, page) =>
                       if negb (doc_status =? 200) then (None, w)
                       else (soup_text env page, w)
                   end
               end
           end
  end.

Definition _fetch_filing_from_edgar (env : Env) (cik accession_number : string) (w : World)
  : option string * World :=
  let '(text, w) := fetch_visible_text env cik accession_number w in
  match text with
  | None => (None, w)
  | Some text => (Extractor.content_gate (Extractor.clean_text text), w)
  end.

(** *** [download_filing]: selection of the filings (lines 243-275) *)

Definition LAST_N_YEARS : Z := 10.

(** Line 241, [datetime.now(datetime.timezone.utc).year]. The name
    [datetime] is the class imported by [from datetime import datetime];
    the class has no attribute [timezone], so evaluating the argument
    raises [AttributeError] and no year is produced. *)
Definition current_year : res Z := Raise AttributeError.

(** [set(range(a, b))] *)
Definition range_set (a b : Z) : gset Z := list_to_set (seqZ a (b - a)).

(** Lines 249-252. *)
Definition years_to_include (current_year : Z) (year : option Z) : gset Z :=
  match year with
  | Some year => {[ year ]}
  | None => range_set (current_year - (LAST_N_YEARS - 1)) (current_year + 1)
  end.

(** Line 273. *)
Definition filing_quarter (report_month : Z) : Z := (report_month - 1) / 3 + 1.

(** The body of [for filing in filings] (lines 255-275): the new value
    of [matching_filings]. *)
Definition select_filing (filing_type : string) (quarter : option Z) (years : gset Z)
  (matching_filings : list Filing) (filing : Filing) : list Filing :=
  match Py.int (Py.slice_to 4 (filing_date filing)) with
  | None => matching_filings
  | Some filing_year =>
      if negb (bool_decide (filing_year ∈ years)) then matching_filings
      else if String.eqb filing_type "10-K" then (matching_filings ++ [filing])%list
      else match quarter with
           | None => (matching_filings ++ [filing])%list
           | Some quarter =>
               match Py.int (Py.slice 5 7 (report_date filing)) with
               | None => matching_filings
               | Some report_month =>
                   if filing_quarter report_month =? quarter
                   then (matching_filings ++ [filing])%list
                   else matching_filings
               end
           end
  end.

(** Lines 243-275 for a given value of [current_year]. *)
Definition select_filings (current_year : Z) (filing_type : string)
  (year quarter : option Z) (download_all : bool) (filings : list Filing)
  : list Filing :=
  if download_all then filings
  else fold_left (select_filing filing_type quarter (years_to_include current_year year))
                 filings [].

(** The condition of the loop body in one piece: the filing year is
    read and lies in [years] and, for a quarterly request with a
    quarter, the month is read and falls in that quarter. *)
Definition included (filing_type : string) (quarter : option Z) (years : gset Z)
  (filing : Filing) : bool :=
  match Py.int (Py.slice_to 4 (filing_date filing)) with
  | None => false
  | Some filing_year =>
      bool_decide (filing_year ∈ years)
      && (String.eqb filing_type "10-K"
          || match quarter with
             | None => true
             | Some quarter =>
                 match Py.int (Py.slice 5 7 (report_date filing)) with
                 | None => false
                 | Some report_month => filing_quarter report_month =? quarter
                 end
             end)
  end.

(** *** [download_filing]: file name and write (lines 293-315) *)

(** Line 299. *)
Definition quarter_num (report_month : Z) : Z := (report_month - 1) / 3 + 1.

(** Lines 293-302: the file name; [int] of the month is not guarded. *)
Definition filing_filename (filing_type ticker : string) (filing : Filing) : res string :=
  if String.eqb filing_type "10-K" then
    let year_str := Py.slice_to 4 (filing_date filing) in
    Ret ("10K-" ++ Py.upper ticker ++ "-" ++ year_str ++ ".txt")
  else
    match Py.int (Py.slice 5 7 (report_date filing)) with
    | None => Raise ValueError
    | Some report_month =>
        let year_str := Py.slice_to 4 (filing_date filing) in
        Ret ("10Q-" ++ Py.upper ticker ++ "-Q" ++ Py.str (quarter_num report_month)
             ++ year_str ++ ".txt")
    end.

Definition filing_folder (filing_type : string) (d : Downloader) : option string :=
  if String.eqb filing_type "10-K" then output_folder_10k d else output_folder_10q d.

(** Lines 305-309. *)
Definition original_dir (env : Env) (output_folder ticker : string) : string :=
  let ticker_dir := path_join env output_folder (Py.upper ticker) in
  path_join env ticker_dir "original".

Definition output_path (env : Env) (output_folder ticker filename : string) : string :=
  path_join env (original_dir env output_folder ticker) filename.

(** Lines 304-315: [True] when the text was written; every exception in
    the block, also the one of [None / ticker.upper()], gives [False]. *)
Definition save_text (env : Env) (output_folder : option string)
  (ticker filename filing_text : string) (w : World) : bool * World :=
  match output_folder with
  | None => (false, w)
  | Some output_folder =>
      let dir := original_dir env output_folder ticker in
      let ok := fs_ok env (trace w) (Mkdir dir) in
      let w := log (Mkdir dir) w in
      if negb ok then (false, w)
      else
        let path := output_path env output_folder ticker filename in
        let ok := fs_ok env (trace w) (WriteText path filing_text) in
        (ok, log (WriteText path filing_text) w)
  end.

(** [for matching_filing in matching_filings] (lines 282-315). *)
Fixpoint save_filings (env : Env) (ticker filing_type cik : string)
  (matching_filings : list Filing) (all_successful : bool) (w : World)
  : res bool * World :=
  match matching_filings with
  | [] => (Ret all_successful, w)
  | matching_filing :: rest =>
      let '(filing_text, w) :=
        _fetch_filing_from_edgar env cik (accession_number matching_filing) w in
      match filing_text with
      | None => save_filings env ticker filing_type cik rest false w
      | Some text =>
          if negb (Py.truthy filing_text)
          then save_filings env ticker filing_type cik rest false w
          else
            match filing_filename filing_type ticker matching_filing with
            | Raise e => (Raise e, w)
            | Ret filename =>
                let '(ok, w) :=
                  save_text env (filing_folder filing_type (self w)) ticker filename text w in
                save_filings env ticker filing_type cik rest (all_successful && ok) w
            end
      end
  end.

(** Lines 243-317 for a given value of [current_year]. *)
Definition download_selected (env : Env) (current_year : Z)
  (ticker filing_type cik : string) (year quarter : option Z) (download_all : bool)
  (filings : list Filing) (w : World) : res bool * World :=
  match select_filings current_year filing_type year quarter download_all filings with
  | [] => (Ret false, w)
  | matching_filings => save_filings env ticker filing_type cik matching_filings true w
  end.

(** *** [download_filing] *)

Definition valid_filing_type (filing_type : string) : bool :=
  String.eqb filing_type "10-K" || String.eqb filing_type "10-Q".

(** [quarter not in (1, 2, 3, 4)] is [negb (valid_quarter quarter)]. *)
Definition valid_quarter (quarter : Z) : bool :=
  (quarter =? 1) || (quarter =? 2) || (quarter =? 3) || (quarter =? 4).

Definition download_filing (env : Env) (ticker filing_type : string)
  (year quarter : option Z) (download_all : bool) (w : World) : res bool * World :=
  if negb (valid_filing_type filing_type) then (Ret false, w)
  else if String.eqb filing_type "10-Q"
          && match quarter with Some q => negb (valid_quarter q) | None => false end
  then (Ret false, w)
  else
    let '(cik, w) := _get_cik env ticker w in
    match cik with
    | None => (Ret false, w)
    | Some cik_str =>
        if negb (Py.truthy cik) then (Ret false, w)
        else
          let '(filings, w) := _get_filings_metadata env cik_str filing_type w in
          match filings with
          | [] => (Ret false, w)
          | _ :: _ =>
              match current_year with
              | Raise e => (Raise e, w)
              | Ret current_year =>
                  download_selected env current_year ticker filing_type cik_str
                                    year quarter download_all filings w
              end
          end
    end.

(** *** [download_batch] *)

(** The body of [for filing_type in filing_types] (lines 330-339). *)
Fixpoint batch_years (env : Env) (ticker filing_type : string) (years : list Z)
  (results : gmap string bool) (w : World) : res (gmap string bool) * World :=
  match years with
  | [] => (Ret results, w)
  | year :: rest =>
      let key := ticker ++ "-" ++ filing_type ++ "-" ++ Py.str year in
      match download_filing env ticker filing_type (Some year) None false w with
      | (Raise e, w) => (Raise e, w)
      | (Ret ok, w) => batch_years env ticker filing_type rest (<[key := ok]> results) w
      end
  end.

Definition batch_unit (env : Env) (years : option (list Z)) (download_all : bool)
  (ticker filing_type : string) (results : gmap string bool) (w : World)
  : res (gmap string bool) * World :=
  if download_all then
    let key := ticker ++ "-" ++ filing_type ++ "-all" in
    match download_filing env ticker filing_type None None true w with
    | (Raise e, w) => (Raise e, w)
    | (Ret ok, w) => (Ret (<[key := ok]> results), w)
    end
  else
    match years with
    | Some (year :: rest) =>
        batch_years env ticker filing_type (year :: rest) results w
    | _ =>
        let key := ticker ++ "-" ++ filing_type in
        match download_filing env ticker filing_type None None false w with
        | (Raise e, w) => (Raise e, w)
        | (Ret ok, w) => (Ret (<[key := ok]> results), w)
        end
    end.

Fixpoint batch_types (env : Env) (years : option (list Z)) (download_all : bool)
  (ticker : string) (filing_types : list string)
  (results : gmap string bool) (w : World) : res (gmap string bool) * World :=
  match filing_types with
  | [] => (Ret results, w)
  | filing_type :: rest =>
      match batch_unit env years download_all ticker filing_type results w with
      | (Raise e, w) => (Raise e, w)
      | (Ret results, w) => batch_types env years download_all ticker rest results w
      end
  end.

Fixpoint batch_tickers (env : Env) (years : option (list Z)) (download_all : bool)
  (filing_types : list string) (tickers : list string)
  (results : gmap string bool) (w : World) : res (gmap string bool) * World :=
  match tickers with
  | [] => (Ret results, w)
  | ticker :: rest =>
      match batch_types env years download_all ticker filing_types results w with
      | (Raise e, w) => (Raise e, w)
      | (Ret results, w) =>
          batch_tickers env years download_all filing_types rest results w
      end
  end.

Definition download_batch (env : Env) (tickers filing_types : list string)
  (years : option (list Z)) (download_all : bool) (w : World)
  : res (gmap string bool) * World :=
  batch_tickers env years download_all filing_types tickers ∅ w.

End SECFilingDownloader.

(* ===================================================================== *)
(** ** A small concrete environment, for running the model *)
(* ===================================================================== *)

Module Fixture.

(** One company, [ZT], with one annual and two quarterly reports. *)
Definition recent : Recent :=
  {| form := ["10-K"; "8-K"; "10-Q"; "10-Q"];
     accessionNumber := ["0000001234-22-000001"; "0000001234-22-000002";
                         "0000001234-22-000003"; "0000001234-22-000004"];
     filingDate := ["2022-02-15"; "2022-03-01"; "2022-05-10"; "2022-08-09"];
     reportDate := ["2021-12-31"; "2022-03-01"; "2022-03-31"; "2022-06-30"] |}.

Definition listing : list string :=
  ["/Archives/edgar/data/1234/000000123422000001/0000001234-22-000001-index.htm";
   "/Archives/edgar/data/1234/000000123422000001/exhibit99.htm";
   "/Archives/edgar/data/1234/000000123422000001/zt-10k.htm";
   "/Archives/edgar/data/1234/000000123422000001/R1.htm"].

Definition page_text : string :=
  "Table of contents" ++ Py.NL ++ "  " ++ Py.NL ++ "UNITED STATES" ++ Py.NL
  ++ "SECURITIES AND EXCHANGE COMMISSION" ++ Py.NL ++ "us-gaap:Assets" ++ Py.NL
  ++ "Annual report of ZT   ".

Definition posix_join (p s : string) : string := p ++ "/" ++ s.

Definition env : Env :=
  {| http_get := fun _ url =>
       if String.eqb url SEC_EDGAR_CIK_LOOKUP then Some (200, "tickers")
       else if String.eqb url (SECFilingDownloader.SEC_EDGAR_SUBMISSIONS "0000001234")
       then Some (200, "submissions")
       else if String.eqb url
                 "https://www.sec.gov/Archives/edgar/data/1234/000000123422000001/"
       then Some (200, "listing")
       else if String.eqb url
                 "https://www.sec.gov/Archives/edgar/data/1234/000000123422000001/zt-10k.htm"
       then Some (200, "page")
       else Some (404, "");
     json_tickers := fun body =>
       if String.eqb body "tickers" then Some [("zt", 1234)] else None;
     json_recent := fun body =>
       if String.eqb body "submissions" then Some recent else None;
     soup_hrefs := fun body =>
       if String.eqb body "listing" then Some listing else None;
     soup_text := fun body =>
       if String.eqb body "page" then Some page_text else None;
     path_new := fun s => s;
     path_join := posix_join;
     fs_ok := fun _ _ => true;
     fs_error := fun _ _ => OSError |}.

(** The object built by [SECFilingDownloader(output_folder='out')]. *)
Definition world : World :=
  {| self := {| output_folder_10k := Some "out";
                output_folder_10q := Some "out";
                cik_lookup := {[ "ZT" := "0000001234" ]} |};
     trace := [Mkdir "out"; Mkdir "out"; Get SEC_EDGAR_CIK_LOOKUP] |}.

Definition annual_2022 : Filing :=
  {| accession_number := "0000001234-22-000001"; filing_date := "2022-02-15";
     report_date := "2021-12-31"; form_type := "10-K" |}.

Definition quarterly_q1 : Filing :=
  {| accession_number := "0000001234-22-000003"; filing_date := "2022-05-10";
     report_date := "2022-03-31"; form_type := "10-Q" |}.

Definition quarterly_q2 : Filing :=
  {| accession_number := "0000001234-22-000004"; filing_date := "2022-08-09";
     report_date := "2022-06-30"; form_type := "10-Q" |}.

(** An environment that answers every request with a long document, and
    a quarterly filing whose report date is empty. *)
Definition long_text : string :=
  "UNITED STATES" ++ Py.NL ++ Py.zeros (Z.to_nat 5000).

Definition long_env : Env :=
  {| http_get := fun _ _ => Some (200, "page");
     json_tickers := fun _ => None;
     json_recent := fun _ => Some recent;
     soup_hrefs := fun _ => Some listing;
     soup_text := fun _ => Some long_text;
     path_new := fun s => s;
     path_join := posix_join;
     fs_ok := fun _ _ => true;
     fs_error := fun _ _ => OSError |}.

(** An environment in which no directory can be created: the name holds
    a null byte. *)
Definition null_byte_env : Env :=
  {| http_get := http_get env;
     json_tickers := json_tickers env;
     json_recent := json_recent env;
     soup_hrefs := soup_hrefs env;
     soup_text := soup_text env;
     path_new := fun s => s;
     path_join := posix_join;
     fs_ok := fun _ _ => false;
     fs_error := fun _ _ => ValueError |}.

Definition quarterly_undated : Filing :=
  {| accession_number := "0000001234-22-000005"; filing_date := "2022-11-08";
     report_date := ""; form_type := "10-Q" |}.

End Fixture.

(* ===================================================================== *)
(** ** The module-level entry point and auxiliary notions *)
(* ===================================================================== *)

(** [download_sec_filings]: builds a downloader and runs the batch on
    it. The result is the mapping and the world after the batch, or the
    exception of the constructor or of the batch. *)
Definition download_sec_filings (env : Env) (tickers : list string)
  (output_folder_10k output_folder_10q output_folder : option string)
  (filing_types : list string) (years : option (list Z)) (download_all : bool)
  (tr : list event) : res (gmap string bool * World) :=
  match SECFilingDownloader.__init__ env output_folder_10k output_folder_10q
          output_folder tr with
  | Raise e => Raise e
  | Ret downloader =>
      match SECFilingDownloader.download_batch env tickers filing_types years
              download_all downloader with
      | (Raise e, _) => Raise e
      | (Ret results, w) => Ret (results, w)
      end
  end.

(** The shape of the identifier table: keys in upper case, identifiers of
    at least ten characters. *)
Definition table_ok (table : gmap string string) : Prop :=
  forall k v, table !! k = Some v ->
    Py.upper k = k /\ (10 <= String.length v)%nat.

(** Strings of decimal digits. *)
Fixpoint all_digits (s : string) : bool :=
  match s with
  | EmptyString => true
  | String c r => SECFilingDownloader.is_digit c && all_digits r
  end.

(** Events that are requests. *)
Definition is_get (e : event) : bool :=
  match e with
  | Get _ => true
  | _ => false
  end.

(** The lines of a text that come from its first line with the start
    marker on. *)
Fixpoint from_marker (lines : list string) : list string :=
  match lines with
  | [] => []
  | line :: rest =>
      if Py.contains Extractor.START_MARKER line then line :: rest
      else from_marker rest
  end.

Definition is_blank (line : string) : bool :=
  String.eqb line "" || (Py.len (Py.strip line) =? 0).

Definition is_content (line : string) : bool :=
  negb (Extractor.is_schema_ref line) && negb (Extractor.is_bare_tag line).

(** No line feed in a string. *)
Fixpoint no_nl (s : string) : bool :=
  match s with
  | EmptyString => true
  | String c r => negb (Ascii.eqb c Py.nl) && no_nl r
  end.


(** [w'] comes from [w] by requests only: the trace grows by [Get]
    events and the output roots are the same. *)
Definition only_requests (w w' : World) : Prop :=
  (exists gets : list event,
      trace w' = (trace w ++ gets)%list /\ List.forallb is_get gets = true)
  /\ output_folder_10k (self w') = output_folder_10k (self w)
  /\ output_folder_10q (self w') = output_folder_10q (self w).

(** A result mapping without a success. *)
Definition all_false (results : gmap string bool) : Prop :=
  forall k v, results !! k = Some v -> v = false.

(** The keys that one (symbol, filing type) unit of a batch writes. *)
Definition unit_keys (years : option (list Z)) (download_all : bool)
  (ticker filing_type : string) : list string :=
  if download_all then [ticker ++ "-" ++ filing_type ++ "-all"]
  else match years with
       | Some (year :: rest) =>
           List.map (fun year => ticker ++ "-" ++ filing_type ++ "-" ++ Py.str year)
                    (year :: rest)
       | _ => [ticker ++ "-" ++ filing_type]
       end.

(** What holds after a part of a batch that started from [results] and
    [w] and was to write [keys]. *)
Definition batch_post (results : gmap string bool) (w : World) (keys : list string)
  (r : res (gmap string bool) * World) : Prop :=
  only_requests w (snd r)
  /\ (table_ok (cik_lookup (self w)) -> table_ok (cik_lookup (self (snd r))))
  /\ match fst r with
     | Ret m =>
         all_false m
         /\ (forall k, is_Some (results !! k) -> is_Some (m !! k))
         /\ (forall k, In k keys -> m !! k = Some false)
     | Raise e => e = AttributeError
     end.

(** Two line feeds, and a text that begins with another character. *)
Definition NL2 : string := String Py.nl (String Py.nl EmptyString).

Definition leads_text (s : string) : Prop :=
  match s with
  | EmptyString => False
  | String c _ => Ascii.eqb c Py.nl = false
  end.

(** The value of a decimal numeral read from the left, starting from
    [acc]. *)
Fixpoint uint_val (d : Decimal.uint) (acc : Z) : Z :=
  match d with
  | Decimal.Nil => acc
  | Decimal.D0 l => uint_val l (10 * acc + 0)
  | Decimal.D1 l => uint_val l (10 * acc + 1)
  | Decimal.D2 l => uint_val l (10 * acc + 2)
  | Decimal.D3 l => uint_val l (10 * acc + 3)
  | Decimal.D4 l => uint_val l (10 * acc + 4)
  | Decimal.D5 l => uint_val l (10 * acc + 5)
  | Decimal.D6 l => uint_val l (10 * acc + 6)
  | Decimal.D7 l => uint_val l (10 * acc + 7)
  | Decimal.D8 l => uint_val l (10 * acc + 8)
  | Decimal.D9 l => uint_val l (10 * acc + 9)
  end.

(** The request for the primary document that a fetch started in [w]
    sends after the directory request: the document chosen from the
    listing just received, when that came with status 200, could be
    parsed and holds a candidate; no request otherwise. *)
Definition document_request (env : Env) (cik accession_number : string) (w : World)
  : list event :=
  match http_get env (trace w ++ [Sleep])%list
          (SECFilingDownloader.dir_url cik accession_number) with
  | Some (status, listing) =>
      if status =? 200 then
        match soup_hrefs env listing with
        | Some hrefs =>
            match Extractor.select_main_doc hrefs with
            | Some main_doc => [Get (SECFilingDownloader.main_doc_url main_doc)]
            | None => []
            end
        | None => []
        end
      else []
  | None => []
  end.
(* ===================================================================== *)
(** ** Sanity checks of the primitives on concrete inputs *)
(* ===================================================================== *)

Example py_split_ex : Py.split "/" "/a/b.htm" = [""; "a"; "b.htm"].
Proof. reflexivity. Qed.
Example py_int_ex1 : Py.int "2022" = Some 2022.
Proof. reflexivity. Qed.
Example py_int_ex2 : Py.int " 07" = Some 7.
Proof. reflexivity. Qed.
Example py_int_ex3 : Py.int "1_0" = Some 10.
Proof. reflexivity. Qed.
Example py_int_ex4 : Py.int "20-2" = None.
Proof. reflexivity. Qed.
Example py_int_ex5 : Py.int "" = None.
Proof. reflexivity. Qed.
Example py_str_ex : (Py.str 0, Py.str 42, Py.str (-7)) = ("0", "42", "-7").
Proof. reflexivity. Qed.
Example py_zfill_ex : Py.zfill 10 "320193" = "0000320193".
Proof. reflexivity. Qed.
Example py_int_ex6 : (Py.int "-12", Py.int "+3", Py.int "- 1", Py.int "_1", Py.int "1_") = (Some (-12), Some 3, None, None, None).
Proof. reflexivity. Qed.
Example py_replace_ex :
  Py.replace_nl3 (String Py.nl (String Py.nl (String Py.nl (String Py.nl "a")))) =
  String Py.nl (String Py.nl (String Py.nl "a")).
Proof. reflexivity. Qed.
Example py_rstrip_ex : Py.rstrip "  a b  " = "  a b".
Proof. reflexivity. Qed.
Example py_slice_ex : (Py.slice_to 4 "2022-02-15", Py.slice 5 7 "2022-02-15", Py.slice 5 7 "2022-0") = ("2022", "02", "0").
Proof. reflexivity. Qed.

Example select_exhibit_r1 :
  Extractor.select_main_doc
    ["/Archives/edgar/data/320193/000032019322000108/exhibit99.htm";
     "/Archives/edgar/data/320193/000032019322000108/R1.htm"]
  = Some "/Archives/edgar/data/320193/000032019322000108/R1.htm".
Proof. reflexivity. Qed.

Example select_prefers_main :
  Extractor.select_main_doc
    ["/cgi-bin/browse-edgar?action=getcompany";
     "/Archives/edgar/data/1/2/0001-index.htm";
     "/Archives/edgar/data/1/2/R2.htm";
     "/Archives/edgar/data/1/2/aapl-20220924.htm";
     "/Archives/edgar/data/1/2/other.htm"]
  = Some "/Archives/edgar/data/1/2/aapl-20220924.htm".
Proof. reflexivity. Qed.

Example select_dir_htm :
  (Extractor.select_main_doc ["/Archives/edgar/data/1/a.htm/b"],
   Extractor.select_rule Extractor.candidate_by_filename ["/Archives/edgar/data/1/a.htm/b"])
  = (Some "/Archives/edgar/data/1/a.htm/b", None).
Proof. reflexivity. Qed.

(* ===================================================================== *)
(** ** Properties of the primary-document choice *)
(* ===================================================================== *)

Section SelectMainDoc.
Import Extractor.

Let tag (href : string) : string * string := (filename_of href, href).

Lemma find_app_first {A} (p : A -> bool) (l1 l2 : list A) :
  List.find p (l1 ++ l2)%list =
  match List.find p l1 with Some x => Some x | None => List.find p l2 end.
Proof.
  induction l1 as [|a l1 IH]; simpl; [reflexivity|].
  destruct (p a); [reflexivity | exact IH].
Qed.

Lemma candidate_nonempty href : candidate href = true -> href <> "".
Proof.
  unfold candidate, is_archive_htm. intros H ->. discriminate H.
Qed.

Lemma truthy_find (p : string -> bool) (cs : list string) :
  Forall (fun h => h <> "") cs ->
  Py.truthy (List.find p cs) = match List.find p cs with Some _ => true | None => false end.
Proof.
  induction 1 as [|h cs Hh _ IH]; simpl; [reflexivity|].
  destruct (p h); [|exact IH].
  simpl. destruct (String.eqb_spec h ""); [contradiction | reflexivity].
Qed.

Lemma scan_link_step (main_doc : option string) (files : list (string * string)) href :
  scan_link (main_doc, files) href =
  if candidate href then
    (if preferred href && negb (Py.truthy main_doc) then Some href else main_doc,
     (files ++ [tag href])%list)
  else (main_doc, files).
Proof.
  unfold scan_link, candidate, preferred, tag.
  destruct (is_archive_htm href); simpl; [|reflexivity].
  destruct (is_listed (filename_of href) href); simpl; [|reflexivity].
  destruct (is_preferred (filename_of href)); simpl; [|reflexivity].
  destruct (Py.truthy main_doc); reflexivity.
Qed.

(** The loop keeps, in [all_htm_files], the candidates seen so far and,
    in [main_doc], the first preferred one among them. *)
Lemma scan_links_from (hrefs cs : list string) :
  Forall (fun h => h <> "") cs ->
  fold_left scan_link hrefs (List.find preferred cs, List.map tag cs) =
  (List.find preferred (cs ++ List.filter candidate hrefs)%list,
   List.map tag (cs ++ List.filter candidate hrefs)%list).
Proof.
  revert cs. induction hrefs as [|href hrefs IH]; intros cs Hcs.
  - simpl. now rewrite app_nil_r.
  - cbn [fold_left List.filter]. rewrite scan_link_step.
    destruct (candidate href) eqn:Hc; [|now apply IH].
    assert (Hcs' : Forall (fun h => h <> "") (cs ++ [href])%list).
    { apply Forall_app; split; [assumption|].
      constructor; [now apply candidate_nonempty | constructor]. }
    specialize (IH (cs ++ [href])%list Hcs').
    rewrite <- !app_assoc in IH. simpl in IH. rewrite <- IH. f_equal.
    rewrite map_app, find_app_first. simpl.
    rewrite (truthy_find preferred cs Hcs).
    destruct (preferred href), (List.find preferred cs); reflexivity.
Qed.

Lemma scan_links_filter (hrefs : list string) :
  scan_links hrefs =
  (List.find preferred (List.filter candidate hrefs),
   List.map tag (List.filter candidate hrefs)).
Proof.
  unfold scan_links. apply (scan_links_from hrefs []). constructor.
Qed.

Lemma find_r1_map (cs : list string) :
  find_r1 None (List.map tag cs) = List.find named_r1 cs.
Proof.
  induction cs as [|h cs IH]; simpl; [reflexivity|].
  unfold named_r1 at 1. destruct (String.eqb (filename_of h) "r1.htm"); [reflexivity | exact IH].
Qed.

Lemma filter_candidate_nonempty (hrefs : list string) :
  Forall (fun h => h <> "") (List.filter candidate hrefs).
Proof.
  apply List.Forall_forall. intros h Hin. apply List.filter_In in Hin.
  apply candidate_nonempty, Hin.
Qed.

(** The code's choice is the selection rule over the code's candidates. *)
Lemma select_main_doc_rule (hrefs : list string) :
  select_main_doc hrefs = select_rule candidate hrefs.
Proof.
  unfold select_main_doc, select_rule. rewrite scan_links_filter.
  pose proof (filter_candidate_nonempty hrefs) as Hne.
  set (cs := List.filter candidate hrefs) in *.
  pose proof (truthy_find preferred cs Hne) as Hp.
  pose proof (truthy_find named_r1 cs Hne) as Hr.
  destruct cs as [|c cs']; [reflexivity|].
  cbn [List.map]. 
  destruct (List.find preferred (c :: cs')) as [h|] eqn:Ep.
  - rewrite Hp. cbn [negb]. rewrite Hp. reflexivity.
  - rewrite Hp. cbn [negb].
    change (tag c :: List.map tag cs') with (List.map tag (c :: cs')).
    rewrite find_r1_map.
    destruct (List.find named_r1 (c :: cs')) as [h|] eqn:Er.
    + rewrite Hr. cbn [negb]. rewrite Hr. reflexivity.
    + rewrite Hr. cbn [negb]. simpl.
      inversion Hne as [|? ? Hc _]; subst.
      destruct (String.eqb_spec c ""); [contradiction | reflexivity].
Qed.

End SelectMainDoc.

(** C1 (amended). For every directory listing the extractor chooses the
    primary document by the selection rule over the candidates the code
    keeps: the link targets pointing into the archive whose lowercased
    target (the whole href, not only its file name) contains [.htm],
    without [index] in the file name and without [/search] in the path.
    The choice is the first candidate whose file name has no [exhibit] and
    is not a file name of fewer than 10 characters beginning with [r];
    else the first candidate named [r1.htm]; else the first candidate.
    There is no choice exactly when there is no candidate, and a listing
    with only [exhibit99.htm] and [r1.htm] yields [r1.htm]. *)
Theorem C1_primary_document_choice (hrefs : list string) :
  Extractor.select_main_doc hrefs = Extractor.select_rule Extractor.candidate hrefs
  /\ (Extractor.select_main_doc hrefs = None
      <-> List.filter Extractor.candidate hrefs = [])
  /\ Extractor.select_main_doc
       ["/Archives/edgar/data/1234/000000123422000001/exhibit99.htm";
        "/Archives/edgar/data/1234/000000123422000001/r1.htm"]
     = Some "/Archives/edgar/data/1234/000000123422000001/r1.htm".
Proof.
  split; [apply select_main_doc_rule|]. split; [|reflexivity].
  rewrite select_main_doc_rule. unfold Extractor.select_rule.
  destruct (List.filter Extractor.candidate hrefs) as [|c cs]; [tauto|].
  split; [|discriminate].
  destruct (List.find Extractor.preferred (c :: cs)); [discriminate|].
  destruct (List.find Extractor.named_r1 (c :: cs)); discriminate.
Qed.

(** C1, as stated: with the candidates filtered on the file name, the
    rule and the code disagree on a listing whose first link has [.htm]
    in a directory part of its target. *)
Lemma C1_filename_filter_counterexample :
  Extractor.select_main_doc
    ["/Archives/edgar/data/1234/000000123422000001/cover.htm/";
     "/Archives/edgar/data/1234/000000123422000001/zt-10k.htm"]
  <> Extractor.select_rule Extractor.candidate_by_filename
       ["/Archives/edgar/data/1234/000000123422000001/cover.htm/";
        "/Archives/edgar/data/1234/000000123422000001/zt-10k.htm"].
Proof. vm_compute. discriminate. Qed.

(* ===================================================================== *)
(** ** Properties of the text cleanup *)
(* ===================================================================== *)

Section CleanText.
Import Extractor.

Lemma startswith_empty_r (m : string) :
  Py.startswith m "" = match m with EmptyString => true | _ => false end.
Proof. destruct m; reflexivity. Qed.

Lemma rstrip_cons (c : ascii) (r : string) :
  Py.rstrip (String c r) =
  match Py.rstrip r with
  | EmptyString => if Py.is_space c then EmptyString else String c EmptyString
  | String c' r' => String c (String c' r')
  end.
Proof. reflexivity. Qed.

(** Trailing white space cannot take part in a match of such a pattern. *)
Lemma startswith_rstrip (l m : string) :
  Py.ends_nonspace m = true ->
  Py.startswith m (Py.rstrip l) = Py.startswith m l.
Proof.
  revert m. induction l as [|c r IH]; intros m Hm; [reflexivity|].
  destruct m as [|a m']; [discriminate Hm|].
  rewrite rstrip_cons. cbn [Py.startswith].
  destruct m' as [|b m''].
  - (* one-character pattern *)
    simpl in Hm. destruct (Py.rstrip r) as [|c' r'].
    + destruct (Py.is_space c) eqn:Hc; simpl.
      * destruct (Ascii.eqb_spec a c) as [->|]; [|reflexivity].
        rewrite Hc in Hm. discriminate Hm.
      * now rewrite andb_true_r.
    + simpl. reflexivity.
  - assert (Hm' : Py.ends_nonspace (String b m'') = true) by exact Hm.
    specialize (IH _ Hm'). rewrite <- IH.
    destruct (Py.rstrip r) as [|c' r'].
    + destruct (Py.is_space c); simpl; now rewrite ?andb_false_r.
    + reflexivity.
Qed.

Lemma contains_empty_r (m : string) :
  m <> "" -> Py.contains m "" = false.
Proof. destruct m; [contradiction | reflexivity]. Qed.

Lemma contains_rstrip (l m : string) :
  Py.ends_nonspace m = true ->
  Py.contains m (Py.rstrip l) = Py.contains m l.
Proof.
  intros Hm. induction l as [|c r IH]; [reflexivity|].
  assert (Hne : m <> "") by (intros ->; discriminate Hm).
  cbn [Py.contains]. rewrite <- IH, <- (startswith_rstrip (String c r) m Hm).
  rewrite rstrip_cons.
  destruct (Py.rstrip r) as [|c' r'].
  - destruct (Py.is_space c); [|reflexivity].
    destruct m; [contradiction | reflexivity].
  - reflexivity.
Qed.

(** Before the marker is seen, a line without it leaves the state as it is. *)
Lemma clean_line_before_start (lines : list string) (raw : string) :
  Py.contains START_MARKER raw = false ->
  clean_line (false, lines) raw = (false, lines).
Proof.
  intros H. unfold clean_line.
  rewrite (contains_rstrip raw START_MARKER eq_refl), H.
  destruct (String.eqb (Py.rstrip raw) "" || (Py.len (Py.strip (Py.rstrip raw)) =? 0));
    reflexivity.
Qed.

Lemma clean_preamble (pre : list string) (lines : list string) :
  List.Forall (fun l => Py.contains START_MARKER l = false) pre ->
  fold_left clean_line pre (false, lines) = (false, lines).
Proof.
  induction 1 as [|raw pre Hraw _ IH]; [reflexivity|].
  cbn [fold_left]. now rewrite (clean_line_before_start lines raw Hraw).
Qed.

Lemma clean_lines_skip_preamble (pre rest : list string) :
  List.Forall (fun l => Py.contains START_MARKER l = false) pre ->
  clean_lines (pre ++ rest)%list = clean_lines rest.
Proof.
  intros H. unfold clean_lines. now rewrite fold_left_app, (clean_preamble pre [] H).
Qed.

(** *** The blank-line loop stops within its fuel *)

Lemma replace_nl3_cons3 (c1 c2 c3 : ascii) (r3 : string) :
  Py.replace_nl3 (String c1 (String c2 (String c3 r3))) =
  if Ascii.eqb c1 Py.nl && Ascii.eqb c2 Py.nl && Ascii.eqb c3 Py.nl
  then String Py.nl (String Py.nl (Py.replace_nl3 r3))
  else String c1 (Py.replace_nl3 (String c2 (String c3 r3))).
Proof. reflexivity. Qed.

Lemma contains_nl3_cons3 (c1 c2 c3 : ascii) (r3 : string) :
  Py.contains Py.NL3 (String c1 (String c2 (String c3 r3))) =
  (Ascii.eqb c1 Py.nl && Ascii.eqb c2 Py.nl && Ascii.eqb c3 Py.nl)
  || Py.contains Py.NL3 (String c2 (String c3 r3)).
Proof.
  cbn [Py.contains Py.startswith Py.NL3].
  rewrite andb_true_r, !(Ascii.eqb_sym Py.nl), !andb_assoc. reflexivity.
Qed.

Lemma replace_nl3_shrinks (n : nat) : forall s : string,
  (String.length s <= n)%nat ->
  (String.length (Py.replace_nl3 s) <= String.length s)%nat
  /\ (Py.contains Py.NL3 s = true ->
      (String.length (Py.replace_nl3 s) < String.length s)%nat).
Proof.
  induction n as [|n IH]; intros s Hs.
  - destruct s; [|simpl in Hs; lia]. split; [reflexivity | discriminate].
  - destruct s as [|c1 r1]; [split; [reflexivity | discriminate]|].
    simpl in Hs.
    destruct (IH r1 ltac:(lia)) as [Hle1 Hlt1].
    destruct r1 as [|c2 [|c3 r3]].
    + split; [reflexivity|]. cbn. rewrite !andb_false_r. discriminate.
    + split; [reflexivity|]. cbn. rewrite !andb_false_r. discriminate.
    + rewrite replace_nl3_cons3, contains_nl3_cons3.
      destruct (Ascii.eqb c1 Py.nl && Ascii.eqb c2 Py.nl && Ascii.eqb c3 Py.nl) eqn:E.
      * simpl in Hs. destruct (IH r3 ltac:(lia)) as [Hle3 _].
        cbn [String.length]. split; intros; lia.
      * cbn [orb]. cbn [String.length] in Hle1, Hlt1 |- *.
        split; [lia|]. intros Hc. specialize (Hlt1 Hc). lia.
Qed.

Lemma collapse_loop_stable (fuel : nat) : forall s : string,
  (String.length s <= fuel)%nat ->
  Py.contains Py.NL3 (collapse_loop fuel s) = false.
Proof.
  induction fuel as [|fuel IH]; intros s Hs.
  - destruct s; [reflexivity | simpl in Hs; lia].
  - cbn [collapse_loop]. destruct (Py.contains Py.NL3 s) eqn:Hc; [|exact Hc].
    apply IH. destruct (replace_nl3_shrinks (String.length s) s (le_n _)) as [_ Hlt].
    specialize (Hlt Hc). lia.
Qed.

(** The loop has met its exit condition when the fuel is used up, and
    more fuel does not change the result. *)
Lemma collapse_stable (s : string) : Py.contains Py.NL3 (collapse s) = false.
Proof. apply collapse_loop_stable, le_n. Qed.

Lemma collapse_loop_fuel (k1 : nat) : forall (k2 : nat) (s : string),
  (String.length s <= k1)%nat -> (String.length s <= k2)%nat ->
  collapse_loop k1 s = collapse_loop k2 s.
Proof.
  induction k1 as [|k1 IH]; intros k2 s H1 H2.
  - destruct s; [|simpl in H1; lia]. destruct k2; reflexivity.
  - destruct k2 as [|k2].
    + destruct s; [reflexivity | simpl in H2; lia].
    + cbn [collapse_loop]. destruct (Py.contains Py.NL3 s) eqn:Hc; [|reflexivity].
      destruct (replace_nl3_shrinks _ s (le_n _)) as [_ Hlt].
      specialize (Hlt Hc). apply IH; lia.
Qed.

Lemma collapse_loop_more_fuel (fuel : nat) (s : string) :
  (String.length s <= fuel)%nat -> collapse_loop fuel s = collapse s.
Proof. intros H. apply collapse_loop_fuel; [exact H | apply le_n]. Qed.

End CleanText.

(* ===================================================================== *)
(** ** Running the model on the fixture *)
(* ===================================================================== *)

Example fixture_init :
  SECFilingDownloader.__init__ Fixture.env None None (Some "out") [] = Ret Fixture.world.
Proof. vm_compute. reflexivity. Qed.

Example fixture_get_cik :
  SECFilingDownloader._get_cik Fixture.env "zt" Fixture.world
  = (Some "0000001234", Fixture.world).
Proof. vm_compute. reflexivity. Qed.

Example fixture_index :
  fst (SECFilingDownloader._get_filings_metadata Fixture.env "0000001234" "10-Q" Fixture.world)
  = [Fixture.quarterly_q1; Fixture.quarterly_q2].
Proof. vm_compute. reflexivity. Qed.

Example fixture_visible_text :
  fst (SECFilingDownloader.fetch_visible_text Fixture.env "0000001234"
         "0000001234-22-000001" Fixture.world)
  = Some Fixture.page_text.
Proof. vm_compute. reflexivity. Qed.

Example fixture_clean_text :
  Extractor.clean_text Fixture.page_text
  = "UNITED STATES" ++ Py.NL ++ "SECURITIES AND EXCHANGE COMMISSION" ++ Py.NL
    ++ "Annual report of ZT".
Proof. vm_compute. reflexivity. Qed.

(** With a current year supplied, the rest of [download_filing] selects
    the 2022 annual report; its text is too short to be kept. *)
Example fixture_selected_2022 :
  SECFilingDownloader.select_filings 2026 "10-K" (Some 2022) None false
    [Fixture.annual_2022]
  = [Fixture.annual_2022].
Proof. vm_compute. reflexivity. Qed.

Example fixture_rolling_window :
  (SECFilingDownloader.select_filings 2031 "10-K" None None false [Fixture.annual_2022],
   SECFilingDownloader.select_filings 2032 "10-K" None None false [Fixture.annual_2022])
  = ([Fixture.annual_2022], []).
Proof. vm_compute. reflexivity. Qed.

Example fixture_quarter_filter :
  SECFilingDownloader.select_filings 2026 "10-Q" (Some 2022) (Some 2) false
    [Fixture.quarterly_q1; Fixture.quarterly_q2]
  = [Fixture.quarterly_q2].
Proof. vm_compute. reflexivity. Qed.

Example fixture_filenames :
  (SECFilingDownloader.filing_filename "10-K" "zt" Fixture.annual_2022,
   SECFilingDownloader.filing_filename "10-Q" "zt" Fixture.quarterly_q2)
  = (Ret "10K-ZT-2022.txt", Ret "10Q-ZT-Q22022.txt").
Proof. vm_compute. reflexivity. Qed.

Example fixture_save_text :
  trace (snd (SECFilingDownloader.save_text Fixture.env (Some "out") "zt"
                "10K-ZT-2022.txt" "text"
                {| self := self Fixture.world; trace := [] |}))
  = [Mkdir "out/ZT/original"; WriteText "out/ZT/original/10K-ZT-2022.txt" "text"].
Proof. vm_compute. reflexivity. Qed.

(* ===================================================================== *)
(** ** Properties of the filing selection *)
(* ===================================================================== *)

Section Selection.
Import SECFilingDownloader.

Lemma select_filing_included (filing_type : string) (quarter : option Z)
  (years : gset Z) (matching : list Filing) (filing : Filing) :
  select_filing filing_type quarter years matching filing =
  (matching ++ if included filing_type quarter years filing then [filing] else [])%list.
Proof.
  unfold select_filing, included.
  destruct (Py.int (Py.slice_to 4 (filing_date filing))) as [fy|];
    [|now rewrite app_nil_r].
  destruct (bool_decide (fy ∈ years)); cbn [negb andb]; [|now rewrite app_nil_r].
  destruct (String.eqb filing_type "10-K"); cbn [orb]; [reflexivity|].
  destruct quarter as [q|]; [|reflexivity].
  destruct (Py.int (Py.slice 5 7 (report_date filing))) as [m|];
    [|now rewrite app_nil_r].
  destruct (filing_quarter m =? q); [reflexivity | now rewrite app_nil_r].
Qed.

Lemma select_loop_filter (filing_type : string) (quarter : option Z) (years : gset Z)
  (filings matching : list Filing) :
  fold_left (select_filing filing_type quarter years) filings matching =
  (matching ++ List.filter (included filing_type quarter years) filings)%list.
Proof.
  revert matching. induction filings as [|f filings IH]; intros matching.
  - simpl. now rewrite app_nil_r.
  - cbn [fold_left List.filter]. rewrite IH, select_filing_included.
    rewrite <- app_assoc. destruct (included filing_type quarter years f); reflexivity.
Qed.

(** The selection is a filter: it keeps the input order. *)
Lemma select_filings_filter (current_year : Z) (filing_type : string)
  (year quarter : option Z) (filings : list Filing) :
  select_filings current_year filing_type year quarter false filings =
  List.filter (included filing_type quarter (years_to_include current_year year)) filings.
Proof. unfold select_filings. cbn [negb]. now rewrite select_loop_filter. Qed.

Lemma elem_of_range_set (a b x : Z) : x ∈ range_set a b <-> a <= x < b.
Proof.
  unfold range_set. rewrite elem_of_list_to_set, elem_of_seqZ. lia.
Qed.

(** The years of a request: the given year, or the ten years that end
    with [current_year]. *)
Lemma elem_of_years_to_include (current_year : Z) (year : option Z) (x : Z) :
  x ∈ years_to_include current_year year <->
  match year with
  | Some y => x = y
  | None => current_year - 9 <= x <= current_year
  end.
Proof.
  unfold years_to_include. destruct year as [y|].
  - apply elem_of_singleton.
  - rewrite elem_of_range_set. unfold LAST_N_YEARS. lia.
Qed.

(** What [included] says, in terms of the two dates. *)
Lemma included_spec (current_year : Z) (filing_type : string)
  (year quarter : option Z) (f : Filing) :
  included filing_type quarter (years_to_include current_year year) f = true <->
  (exists fy : Z,
      Py.int (Py.slice_to 4 (filing_date f)) = Some fy
      /\ match year with
         | Some y => fy = y
         | None => current_year - 9 <= fy <= current_year
         end)
  /\ (filing_type <> "10-K" ->
      forall q : Z, quarter = Some q ->
        exists m : Z,
          Py.int (Py.slice 5 7 (report_date f)) = Some m /\ (m - 1) / 3 + 1 = q).
Proof.
  unfold included.
  destruct (Py.int (Py.slice_to 4 (filing_date f))) as [fy|].
  - rewrite andb_true_iff, bool_decide_eq_true, elem_of_years_to_include.
    split.
    + intros [Hy Hq]. split; [exists fy; split; [reflexivity | exact Hy]|].
      intros Hk q ->. apply orb_true_iff in Hq as [Hq|Hq].
      * apply String.eqb_eq in Hq. contradiction.
      * destruct (Py.int (Py.slice 5 7 (report_date f))) as [m|]; [|discriminate].
        exists m. split; [reflexivity|]. apply Z.eqb_eq in Hq. exact Hq.
    + intros [(fy' & E & Hy) Hq]. injection E as <-. split; [exact Hy|].
      destruct (String.eqb_spec filing_type "10-K") as [|Hk]; [reflexivity|].
      cbn [orb]. destruct quarter as [q|]; [|reflexivity].
      destruct (Hq Hk q eq_refl) as (m & -> & Hm).
      apply Z.eqb_eq. exact Hm.
  - split; [discriminate|]. intros [(fy & E & _) _]. discriminate E.
Qed.

(** The selection block, for any value of [current_year] handed to it:
    a filing is kept exactly when it is in the list, its filing year is
    read and lies in the requested years and, for a quarterly request
    with a quarter, its month is read and gives that quarter. *)
Lemma select_filings_spec (current_year : Z) (filing_type : string)
  (year quarter : option Z) (filings : list Filing) (f : Filing) :
  In f (select_filings current_year filing_type year quarter false filings) <->
  In f filings
  /\ (exists fy : Z,
         Py.int (Py.slice_to 4 (filing_date f)) = Some fy
         /\ match year with
            | Some y => fy = y
            | None => current_year - 9 <= fy <= current_year
            end)
  /\ (filing_type <> "10-K" ->
      forall q : Z, quarter = Some q ->
        exists m : Z,
          Py.int (Py.slice 5 7 (report_date f)) = Some m /\ (m - 1) / 3 + 1 = q).
Proof.
  rewrite select_filings_filter, List.filter_In, included_spec. tauto.
Qed.

End Selection.

(** The selection block (lines 243-275) under [download_all], for any
    value of [current_year] handed to it: the list is returned as it is
    and goes to the download loop in the order of the input. *)
Lemma select_all_block_identity (env : Env) (current_year : Z)
  (ticker filing_type cik : string) (year quarter : option Z)
  (filing : Filing) (filings : list Filing) (w : World) :
  SECFilingDownloader.select_filings current_year filing_type year quarter true
    (filing :: filings) = filing :: filings
  /\ SECFilingDownloader.download_selected env current_year ticker filing_type cik
       year quarter true (filing :: filings) w
     = SECFilingDownloader.save_filings env ticker filing_type cik
         (filing :: filings) true w.
Proof. split; reflexivity. Qed.

(* ===================================================================== *)
(** ** Properties of [download_filing] and [download_batch] *)
(* ===================================================================== *)

Section DownloadFiling.
Import SECFilingDownloader.

Lemma quarter_of_month (m : Z) :
  1 <= m <= 12 ->
  filing_quarter m = 1 \/ filing_quarter m = 2 \/ filing_quarter m = 3
  \/ filing_quarter m = 4.
Proof.
  intros Hm.
  assert (H : m = 1 \/ m = 2 \/ m = 3 \/ m = 4 \/ m = 5 \/ m = 6 \/ m = 7
              \/ m = 8 \/ m = 9 \/ m = 10 \/ m = 11 \/ m = 12) by lia.
  repeat (destruct H as [->|H]; [vm_compute; tauto|]).
  subst m. vm_compute. tauto.
Qed.

Lemma valid_filing_type_spec (filing_type : string) :
  valid_filing_type filing_type = true <-> filing_type = "10-K" \/ filing_type = "10-Q".
Proof.
  unfold valid_filing_type. rewrite orb_true_iff, !String.eqb_eq. tauto.
Qed.

Lemma valid_quarter_spec (q : Z) :
  valid_quarter q = true <-> q = 1 \/ q = 2 \/ q = 3 \/ q = 4.
Proof.
  unfold valid_quarter. rewrite !orb_true_iff, !Z.eqb_eq. tauto.
Qed.

(** The selection for an annual request does not look at [quarter]. *)
Lemma select_filings_annual (current_year : Z) (year quarter : option Z)
  (download_all : bool) (filings : list Filing) :
  select_filings current_year "10-K" year quarter download_all filings =
  select_filings current_year "10-K" year None download_all filings.
Proof. reflexivity. Qed.

(** A request that reaches line 241 stops there. *)
Lemma download_filing_reaches_current_year (env : Env) (ticker filing_type : string)
  (year quarter : option Z) (download_all : bool) (w w1 w2 : World)
  (cik : string) (filing : Filing) (filings : list Filing) :
  valid_filing_type filing_type = true ->
  (filing_type = "10-Q" -> forall q, quarter = Some q -> valid_quarter q = true) ->
  _get_cik env ticker w = (Some cik, w1) ->
  cik <> "" ->
  _get_filings_metadata env cik filing_type w1 = (filing :: filings, w2) ->
  download_filing env ticker filing_type year quarter download_all w =
  (Raise AttributeError, w2).
Proof.
  intros Hv Hq Hcik Hne Hfs. unfold download_filing.
  rewrite Hv. cbn [negb].
  assert (Hq' : String.eqb filing_type "10-Q"
                && match quarter with
                   | Some q => negb (valid_quarter q)
                   | None => false
                   end = false).
  { destruct (String.eqb_spec filing_type "10-Q") as [E|]; [|reflexivity].
    destruct quarter as [q|]; [|reflexivity].
    cbn [andb]. now rewrite (Hq E q eq_refl). }
  rewrite Hq', Hcik. cbn [Py.truthy].
  destruct (String.eqb_spec cik "") as [|_]; [contradiction|]. cbn [negb].
  rewrite Hfs. reflexivity.
Qed.

(** No call of [download_filing] reports a success. *)
Lemma download_filing_never_true (env : Env) (ticker filing_type : string)
  (year quarter : option Z) (download_all : bool) (w : World) :
  fst (download_filing env ticker filing_type year quarter download_all w) = Ret false
  \/ fst (download_filing env ticker filing_type year quarter download_all w)
     = Raise AttributeError.
Proof.
  unfold download_filing.
  destruct (negb (valid_filing_type filing_type)); [now left|].
  destruct (String.eqb filing_type "10-Q" && _); [now left|].
  destruct (_get_cik env ticker w) as [[cik|] w1]; [|now left].
  destruct (negb (Py.truthy (Some cik))); [now left|].
  destruct (_get_filings_metadata env cik filing_type w1) as [[|f fs] w2];
    [now left | now right].
Qed.

End DownloadFiling.

(** The month of the report date is read without a guard at line 298:
    with a current year supplied, a quarterly filing without report date
    that is downloaded under the policy [all] makes the rest of
    [download_filing] raise [ValueError] after the document was fetched. *)
Example month_parse_unguarded :
  fst (SECFilingDownloader.download_selected Fixture.long_env 2026 "ZT" "10-Q"
         "0000001234" None None true [Fixture.quarterly_undated] Fixture.world)
  = Raise ValueError.
Proof. vm_compute. reflexivity. Qed.

Example long_document_saved :
  fst (SECFilingDownloader.download_selected Fixture.long_env 2026 "ZT" "10-K"
         "0000001234" (Some 2022) None false [Fixture.annual_2022] Fixture.world)
  = Ret true.
Proof. vm_compute. reflexivity. Qed.

(** C3. For a month from 1 to 12 the derived quarter is
    [(m - 1) // 3 + 1] and is one of 1, 2, 3, 4. The file name uses the
    same formula as the filter, for every month value; so a quarterly
    filing that the filter keeps for quarter [q] gets the file name with
    [Q] followed by that same [q]. *)
Theorem C3_quarter_derivation (m q current_year : Z) (year : option Z)
  (ticker : string) (filings : list Filing) (f : Filing) :
  1 <= m <= 12 ->
  In f (SECFilingDownloader.select_filings current_year "10-Q" year (Some q) false filings) ->
  SECFilingDownloader.filing_quarter m = (m - 1) / 3 + 1
  /\ (SECFilingDownloader.filing_quarter m = 1 \/ SECFilingDownloader.filing_quarter m = 2
      \/ SECFilingDownloader.filing_quarter m = 3 \/ SECFilingDownloader.filing_quarter m = 4)
  /\ (forall n : Z, SECFilingDownloader.quarter_num n = SECFilingDownloader.filing_quarter n)
  /\ SECFilingDownloader.filing_filename "10-Q" ticker f
     = Ret ("10Q-" ++ Py.upper ticker ++ "-Q" ++ Py.str q
            ++ Py.slice_to 4 (filing_date f) ++ ".txt").
Proof.
  intros Hm Hin. split; [reflexivity|]. split; [now apply quarter_of_month|].
  split; [reflexivity|].
  apply select_filings_spec in Hin as (_ & _ & Hq).
  destruct (Hq ltac:(discriminate) q eq_refl) as (m' & Em & Eq).
  unfold SECFilingDownloader.filing_filename. cbn [String.eqb Ascii.eqb Bool.eqb].
  rewrite Em. unfold SECFilingDownloader.quarter_num. now rewrite Eq.
Qed.

Lemma C3_quarter_derivation_witness :
  SECFilingDownloader.filing_quarter 6 = 2
  /\ SECFilingDownloader.filing_filename "10-Q" "zt" Fixture.quarterly_q2
     = Ret "10Q-ZT-Q22022.txt".
Proof.
  pose proof (C3_quarter_derivation 6 2 2026 (Some 2022) "zt"
                [Fixture.quarterly_q1; Fixture.quarterly_q2] Fixture.quarterly_q2
                ltac:(lia) ltac:(vm_compute; tauto)) as (H1 & _ & _ & H4).
  split; [exact H1 | exact H4].
Defined.

(** C10. A request whose filing type is neither [10-K] nor [10-Q], and a
    [10-Q] request whose quarter is not one of 1, 2, 3, 4, return [False]
    and leave the world as it was: no request is sent, nothing is
    written, the object is unchanged. For [10-K] the quarter is not
    checked and the selection and the download do not depend on it. *)
Theorem C10_invalid_request_rejected (env : Env) (ticker filing_type cik : string)
  (year quarter : option Z) (download_all : bool) (w : World)
  (current_year : Z) (filings : list Filing) :
  (filing_type <> "10-K" /\ filing_type <> "10-Q")
  \/ (filing_type = "10-Q"
      /\ exists q : Z, quarter = Some q /\ ~ (q = 1 \/ q = 2 \/ q = 3 \/ q = 4)) ->
  SECFilingDownloader.download_filing env ticker filing_type year quarter download_all w
  = (Ret false, w)
  /\ SECFilingDownloader.download_filing env ticker "10-K" year quarter download_all w
     = SECFilingDownloader.download_filing env ticker "10-K" year None download_all w
  /\ SECFilingDownloader.select_filings current_year "10-K" year quarter download_all filings
     = SECFilingDownloader.select_filings current_year "10-K" year None download_all filings
  /\ SECFilingDownloader.download_selected env current_year ticker "10-K" cik
       year quarter download_all filings w
     = SECFilingDownloader.download_selected env current_year ticker "10-K" cik
         year None download_all filings w.
Proof.
  intros H. split; [|repeat split; reflexivity].
  unfold SECFilingDownloader.download_filing.
  destruct H as [[Hk Hq] | [-> (q & -> & Hq)]].
  - destruct (SECFilingDownloader.valid_filing_type filing_type) eqn:E; [|reflexivity].
    apply valid_filing_type_spec in E. tauto.
  - cbn [SECFilingDownloader.valid_filing_type String.eqb Ascii.eqb Bool.eqb orb negb andb].
    destruct (SECFilingDownloader.valid_quarter q) eqn:E; [|reflexivity].
    apply valid_quarter_spec in E. contradiction.
Qed.

Lemma C10_invalid_request_rejected_witness :
  SECFilingDownloader.download_filing Fixture.env "ZT" "8-K" (Some 2022) None false Fixture.world
  = (Ret false, Fixture.world)
  /\ SECFilingDownloader.download_filing Fixture.env "ZT" "10-Q" (Some 2022) (Some 5) false
       Fixture.world
     = (Ret false, Fixture.world).
Proof.
  split.
  - apply (C10_invalid_request_rejected Fixture.env "ZT" "8-K" "" (Some 2022) None false
             Fixture.world 2026 []).
    left. split; discriminate.
  - apply (C10_invalid_request_rejected Fixture.env "ZT" "10-Q" "" (Some 2022) (Some 5) false
             Fixture.world 2026 []).
    right. split; [reflexivity|]. exists 5. split; [reflexivity | lia].
Defined.

(** C2, evaluated on the code. A request that passes the checks, whose
    symbol resolves and whose index has a filing of the requested type is
    exactly a request for which the selection would run. For each of them
    [download_filing] raises [AttributeError] at line 241, where the
    current year is computed, before a year set is built or a filing is
    looked at: no filing is selected, with or without an explicit year. *)
Theorem C2_selection_stops_at_current_year (env : Env) (ticker filing_type : string)
  (year quarter : option Z) (w w1 w2 : World)
  (cik : string) (filing : Filing) (filings : list Filing) :
  SECFilingDownloader.valid_filing_type filing_type = true ->
  (filing_type = "10-Q" -> forall q, quarter = Some q ->
     SECFilingDownloader.valid_quarter q = true) ->
  SECFilingDownloader._get_cik env ticker w = (Some cik, w1) ->
  cik <> "" ->
  SECFilingDownloader._get_filings_metadata env cik filing_type w1
  = (filing :: filings, w2) ->
  SECFilingDownloader.current_year = Raise AttributeError
  /\ SECFilingDownloader.download_filing env ticker filing_type year quarter false w
     = (Raise AttributeError, w2).
Proof.
  intros. split; [reflexivity|].
  now apply download_filing_reaches_current_year with (w1 := w1) (cik := cik)
    (filing := filing) (filings := filings).
Qed.

Lemma C2_selection_stops_at_current_year_witness :
  fst (SECFilingDownloader.download_filing Fixture.env "ZT" "10-K" None None false
         Fixture.world) = Raise AttributeError
  /\ fst (SECFilingDownloader.download_filing Fixture.env "ZT" "10-K" (Some 2022) None false
            Fixture.world) = Raise AttributeError.
Proof.
  assert (G : forall year,
    fst (SECFilingDownloader.download_filing Fixture.env "ZT" "10-K" year None false
           Fixture.world) = Raise AttributeError).
  { intros year.
    destruct (C2_selection_stops_at_current_year Fixture.env "ZT" "10-K" year None
                Fixture.world Fixture.world
                (log (Get (SECFilingDownloader.SEC_EDGAR_SUBMISSIONS "0000001234")) Fixture.world)
                "0000001234" Fixture.annual_2022 []) as [_ E].
    - reflexivity.
    - discriminate.
    - vm_compute. reflexivity.
    - discriminate.
    - vm_compute. reflexivity.
    - now rewrite E. }
  split; apply G.
Defined.

(** C5, evaluated on the code. A batch over two symbols and both filing
    types for the year 2022: the first unit resolves its symbol, reads a
    non-empty index and then raises [AttributeError] at line 241; the
    exception leaves [download_filing] and [download_batch], so there is
    no result mapping and no later unit runs (the trace ends with the one
    index request). A batch whose only symbol cannot be resolved does
    return a mapping, with [False] for each of its units. *)
Theorem C5_batch_aborts_on_current_year :
  fst (SECFilingDownloader.download_batch Fixture.env ["ZT"; "QQ"] ["10-K"; "10-Q"]
         (Some [2022]) false Fixture.world) = Raise AttributeError
  /\ trace (snd (SECFilingDownloader.download_batch Fixture.env ["ZT"; "QQ"]
                   ["10-K"; "10-Q"] (Some [2022]) false Fixture.world))
     = (trace Fixture.world
        ++ [Get (SECFilingDownloader.SEC_EDGAR_SUBMISSIONS "0000001234")])%list
  /\ fst (SECFilingDownloader.download_batch Fixture.env ["QQ"] ["10-K"; "10-Q"]
            (Some [2022]) false Fixture.world)
     = Ret (<["QQ-10-Q-2022" := false]> (<["QQ-10-K-2022" := false]> ∅)).
Proof. vm_compute. repeat split; reflexivity. Qed.

(* ===================================================================== *)
(** ** Properties of the extracted text *)
(* ===================================================================== *)

Section ExtractedText.
Import SECFilingDownloader Extractor.

Lemma content_gate_spec (cleaned : string) :
  content_gate cleaned = if Py.len cleaned <=? 5000 then None else Some cleaned.
Proof.
  unfold content_gate, MIN_CONTENT.
  destruct (Z.gtb_spec (Py.len cleaned) 5000), (Z.leb_spec (Py.len cleaned) 5000);
    try reflexivity; lia.
Qed.

Lemma content_gate_some (cleaned t : string) :
  content_gate cleaned = Some t -> t = cleaned /\ 5000 < Py.len t.
Proof.
  rewrite content_gate_spec. destruct (Z.leb_spec (Py.len cleaned) 5000); [discriminate|].
  intros [= <-]. split; [reflexivity | assumption].
Qed.

(** Whatever the environment answers, a returned text is above the
    threshold. *)
Lemma fetched_text_is_long (env : Env) (cik accession_number : string) (w : World)
  (t : string) :
  fst (_fetch_filing_from_edgar env cik accession_number w) = Some t ->
  5000 < Py.len t.
Proof.
  unfold _fetch_filing_from_edgar.
  destruct (fetch_visible_text env cik accession_number w) as [[text|] w']; cbn [fst];
    [|discriminate].
  intros H. now apply content_gate_some in H.
Qed.

End ExtractedText.

(** The length threshold at its boundary: 5000 characters are not enough,
    5001 are. *)
Example content_gate_boundary :
  (Extractor.content_gate (Py.zeros (Z.to_nat 5000)), Extractor.content_gate (Py.zeros (Z.to_nat 5001)))
  = (None, Some (Py.zeros (Z.to_nat 5001))).
Proof. vm_compute. reflexivity. Qed.

Example clean_text_long_document :
  Extractor.content_gate
    (Extractor.clean_text ("cover" ++ Py.NL ++ "UNITED STATES" ++ Py.NL ++ Py.zeros (Z.to_nat 4987)))
  = Some ("UNITED STATES" ++ Py.NL ++ Py.zeros (Z.to_nat 4987)).
Proof. vm_compute. reflexivity. Qed.

(** C6. When the primary document has been fetched and its visible text
    read, the extractor returns the cleaned text if the cleaned text is
    longer than 5000 characters and returns nothing (the failure) if it
    has 5000 characters or fewer; so no returned document is ever 5000
    characters or shorter. *)
Theorem C6_short_content_is_failure (env : Env) (cik accession_number : string)
  (w w' : World) (text : string) :
  SECFilingDownloader.fetch_visible_text env cik accession_number w = (Some text, w') ->
  SECFilingDownloader._fetch_filing_from_edgar env cik accession_number w
  = (if Py.len (Extractor.clean_text text) <=? 5000 then None
     else Some (Extractor.clean_text text), w')
  /\ (forall t : string,
        fst (SECFilingDownloader._fetch_filing_from_edgar env cik accession_number w) = Some t ->
        5000 < Py.len t).
Proof.
  intros H. split; [|apply fetched_text_is_long].
  unfold SECFilingDownloader._fetch_filing_from_edgar. rewrite H.
  now rewrite content_gate_spec.
Qed.

Lemma C6_short_content_is_failure_witness :
  fst (SECFilingDownloader.fetch_visible_text Fixture.env "0000001234"
         "0000001234-22-000001" Fixture.world) = Some Fixture.page_text
  /\ fst (SECFilingDownloader._fetch_filing_from_edgar Fixture.env "0000001234"
            "0000001234-22-000001" Fixture.world) = None.
Proof.
  split; [vm_compute; reflexivity|].
  destruct (C6_short_content_is_failure Fixture.env "0000001234" "0000001234-22-000001"
              Fixture.world
              (snd (SECFilingDownloader.fetch_visible_text Fixture.env "0000001234"
                      "0000001234-22-000001" Fixture.world))
              Fixture.page_text) as [E _].
  - vm_compute. reflexivity.
  - rewrite E. vm_compute. reflexivity.
Defined.

(** C7. If no line of the visible text before some point contains
    [UNITED STATES], the cleaned text is what the lines from that point
    on give by themselves: everything before the first line with the
    marker is discarded, however late that line comes. If no line at all
    contains the marker, no line is kept and the cleaned text is empty. *)
Theorem C7_preamble_discarded (text : string) (pre rest : list string) :
  Py.split Py.nl text = (pre ++ rest)%list ->
  List.Forall (fun line => Py.contains Extractor.START_MARKER line = false) pre ->
  Extractor.clean_lines (Py.split Py.nl text) = Extractor.clean_lines rest
  /\ Extractor.clean_text text
     = Extractor.collapse (Py.join Py.NL (Extractor.clean_lines rest))
  /\ (rest = [] ->
      Extractor.clean_lines (Py.split Py.nl text) = [] /\ Extractor.clean_text text = "").
Proof.
  intros Hsplit Hpre.
  assert (E : Extractor.clean_lines (Py.split Py.nl text) = Extractor.clean_lines rest)
    by (rewrite Hsplit; now apply clean_lines_skip_preamble).
  split; [exact E|]. unfold Extractor.clean_text. rewrite E.
  split; [reflexivity|]. intros ->. split; reflexivity.
Qed.

Lemma C7_preamble_discarded_witness :
  Extractor.clean_text Fixture.page_text
  = "UNITED STATES" ++ Py.NL ++ "SECURITIES AND EXCHANGE COMMISSION" ++ Py.NL
    ++ "Annual report of ZT"
  /\ Extractor.clean_text ("Annual report" ++ Py.NL ++ "of ZT") = "".
Proof.
  split.
  - destruct (C7_preamble_discarded Fixture.page_text
                ["Table of contents"; "  "]
                ["UNITED STATES"; "SECURITIES AND EXCHANGE COMMISSION"; "us-gaap:Assets";
                 "Annual report of ZT   "]) as (_ & E & _).
    + vm_compute. reflexivity.
    + repeat constructor.
    + rewrite E. vm_compute. reflexivity.
  - destruct (C7_preamble_discarded ("Annual report" ++ Py.NL ++ "of ZT")
                ["Annual report"; "of ZT"] []) as (_ & _ & E).
    + vm_compute. reflexivity.
    + repeat constructor.
    + apply E. reflexivity.
Defined.

(* ===================================================================== *)
(** ** Properties of the output path and of the constructor *)
(* ===================================================================== *)

Section Persistence.
Import SECFilingDownloader.

(** The only file that [save_text] writes is the one at [output_path]. *)
Lemma save_text_writes (env : Env) (root ticker filename text : string) (w : World)
  (p x : string) :
  In (WriteText p x)
     (trace (snd (save_text env (Some root) ticker filename text w))) ->
  In (WriteText p x) (trace w)
  \/ (p = output_path env root ticker filename /\ x = text).
Proof.
  unfold save_text.
  destruct (negb (fs_ok env (trace w) (Mkdir (original_dir env root ticker))));
    cbn [snd log trace self]; intros H.
  - apply in_app_or in H as [H|[H|[]]]; [now left | discriminate H].
  - apply in_app_or in H as [H|[H|[]]].
    + apply in_app_or in H as [H|[H|[]]]; [now left | discriminate H].
    + injection H as <- <-. now right.
Qed.

(** The two roots survive the rest of the constructor. *)
Lemma load_cik_lookup_folders (env : Env) (w : World) :
  output_folder_10k (self (_load_cik_lookup env w)) = output_folder_10k (self w)
  /\ output_folder_10q (self (_load_cik_lookup env w)) = output_folder_10q (self w).
Proof.
  unfold _load_cik_lookup, get.
  destruct (http_get env (trace w) SEC_EDGAR_CIK_LOOKUP) as [[status body]|];
    [|split; reflexivity].
  destruct (raise_for_status status); [split; reflexivity|].
  destruct (json_tickers env body); split; reflexivity.
Qed.

(** [__init__] either raises what [init_folders] raises, or what a
    failing [mkdir] of a root raises, or builds an object with the roots
    of [init_folders]. *)
Lemma init_outcome (env : Env) (k q o : option string) (tr : list event) :
  match __init__ env k q o tr with
  | Ret w => init_folders env k q o
             = Ret (output_folder_10k (self w), output_folder_10q (self w))
  | Raise e =>
      init_folders env k q o = Raise e
      \/ exists past p, fs_ok env past (Mkdir p) = false
                        /\ e = fs_error env past (Mkdir p)
  end.
Proof.
  unfold __init__.
  destruct (init_folders env k q o) as [[f10k f10q]|e]; [|now left].
  destruct (mkdir_root env f10k tr) as [[[]|e] tr1] eqn:E1.
  - destruct (mkdir_root env f10q tr1) as [[[]|e] tr2] eqn:E2.
    + destruct (load_cik_lookup_folders env
                  {| self := {| output_folder_10k := f10k; output_folder_10q := f10q;
                                cik_lookup := ∅ |};
                     trace := tr2 |}) as [-> ->].
      reflexivity.
    + right. unfold mkdir_root in E2. destruct f10q as [p|]; [|discriminate E2].
      exists tr1, p. destruct (fs_ok env tr1 (Mkdir p)); [discriminate E2|].
      split; [reflexivity | now injection E2 as <- _].
  - right. unfold mkdir_root in E1. destruct f10k as [p|]; [|discriminate E1].
    exists tr, p. destruct (fs_ok env tr (Mkdir p)); [discriminate E1|].
    split; [reflexivity | now injection E1 as <- _].
Qed.

(** When the roots are accepted and every directory can be created, the
    constructor returns an object with these roots. *)
Lemma init_succeeds (env : Env) (k q o a b : option string) (tr : list event) :
  init_folders env k q o = Ret (a, b) ->
  (forall past e, fs_ok env past e = true) ->
  exists w : World,
    __init__ env k q o tr = Ret w
    /\ output_folder_10k (self w) = a /\ output_folder_10q (self w) = b.
Proof.
  intros Hf Hfs. pose proof (init_outcome env k q o tr) as H.
  destruct (__init__ env k q o tr) as [w|e].
  - exists w. rewrite Hf in H. injection H as -> ->. repeat split.
  - exfalso. destruct H as [H | (past & p & H & _)].
    + rewrite Hf in H. discriminate H.
    + rewrite Hfs in H. discriminate H.
Qed.

End Persistence.

(** Lines 293-309 taken by themselves. The file name of a filing is
    [10K-SYMBOL-YEAR.txt] for an annual
    request and [10Q-SYMBOL-QqYEAR.txt] for a quarterly one, with the
    symbol in upper case, [YEAR] the first four characters of the filing
    date and [q] the quarter of the month of the report date. The path is
    the output root joined with the symbol, with [original] and with the
    file name, and it is the only file a write touches. Two filings of
    the same symbol (up to case), type, filing year and quarter therefore
    get the same name and the same path. *)
Lemma output_path_deterministic (env : Env)
  (root filing_type ticker1 ticker2 name text : string) (f1 f2 : Filing) (w : World) :
  Py.upper ticker1 = Py.upper ticker2 ->
  Py.slice_to 4 (filing_date f1) = Py.slice_to 4 (filing_date f2) ->
  (filing_type <> "10-K" ->
   option_map SECFilingDownloader.quarter_num (Py.int (Py.slice 5 7 (report_date f1)))
   = option_map SECFilingDownloader.quarter_num (Py.int (Py.slice 5 7 (report_date f2)))) ->
  SECFilingDownloader.filing_filename filing_type ticker1 f1 = Ret name ->
  (filing_type = "10-K" ->
   name = "10K-" ++ Py.upper ticker1 ++ "-" ++ Py.slice_to 4 (filing_date f1) ++ ".txt")
  /\ (filing_type <> "10-K" ->
      exists m : Z,
        Py.int (Py.slice 5 7 (report_date f1)) = Some m
        /\ name = "10Q-" ++ Py.upper ticker1 ++ "-Q" ++ Py.str ((m - 1) / 3 + 1)
                  ++ Py.slice_to 4 (filing_date f1) ++ ".txt")
  /\ SECFilingDownloader.filing_filename filing_type ticker2 f2 = Ret name
  /\ SECFilingDownloader.output_path env root ticker1 name
     = path_join env (path_join env (path_join env root (Py.upper ticker1)) "original") name
  /\ SECFilingDownloader.output_path env root ticker2 name
     = SECFilingDownloader.output_path env root ticker1 name
  /\ (forall p x : string,
        In (WriteText p x)
           (trace (snd (SECFilingDownloader.save_text env (Some root) ticker2 name text w))) ->
        In (WriteText p x) (trace w)
        \/ (p = SECFilingDownloader.output_path env root ticker1 name /\ x = text)).
Proof.
  intros Hsym Hyear Hq Hname.
  assert (Hpath : SECFilingDownloader.output_path env root ticker2 name
                  = SECFilingDownloader.output_path env root ticker1 name).
  { unfold SECFilingDownloader.output_path, SECFilingDownloader.original_dir.
    now rewrite Hsym. }
  unfold SECFilingDownloader.filing_filename in *.
  destruct (String.eqb_spec filing_type "10-K") as [Hk|Hk].
  - injection Hname as <-.
    split; [reflexivity|]. split; [contradiction|].
    split; [now rewrite Hsym, Hyear|]. split; [reflexivity|]. split; [exact Hpath|].
    intros p x H. rewrite <- Hpath. now apply save_text_writes.
  - specialize (Hq Hk).
    destruct (Py.int (Py.slice 5 7 (report_date f1))) as [m1|]; [|discriminate Hname].
    destruct (Py.int (Py.slice 5 7 (report_date f2))) as [m2|]; [|discriminate Hq].
    injection Hq as Hq. injection Hname as <-.
    split; [contradiction|]. split; [exists m1; split; reflexivity|].
    split; [now rewrite Hsym, Hyear, Hq|]. split; [reflexivity|]. split; [exact Hpath|].
    intros p x H. rewrite <- Hpath. now apply save_text_writes.
Qed.

Example end_to_end_path :
  SECFilingDownloader.output_path Fixture.env "root" "zt" "10K-ZT-2022.txt"
  = "root/ZT/original/10K-ZT-2022.txt".
Proof. reflexivity. Qed.

(** C9. With the three folder arguments all [None] the constructor raises
    [ValueError], before anything is done. With only the shared folder
    given, both output roots are that folder. With exactly one of the two
    specific folders given, the root of the other type is [None], whether
    or not a shared folder is given too. An object that the constructor
    returns always carries these roots, and the constructor does return
    one whenever the directories of the roots can be created (a [mkdir]
    that fails raises out of the constructor). *)
Theorem C9_constructor_folders (env : Env) (shared k q : string) (o : option string)
  (tr : list event) :
  SECFilingDownloader.init_folders env None None None = Raise ValueError
  /\ SECFilingDownloader.__init__ env None None None tr = Raise ValueError
  /\ SECFilingDownloader.init_folders env None None (Some shared)
     = Ret (Some (path_new env shared), Some (path_new env shared))
  /\ SECFilingDownloader.init_folders env (Some k) None o
     = Ret (if String.eqb k "" then None else Some (path_new env k), None)
  /\ SECFilingDownloader.init_folders env None (Some q) o
     = Ret (None, if String.eqb q "" then None else Some (path_new env q))
  /\ (forall w,
        SECFilingDownloader.__init__ env None None (Some shared) tr = Ret w ->
        output_folder_10k (self w) = Some (path_new env shared)
        /\ output_folder_10q (self w) = Some (path_new env shared))
  /\ (forall w,
        SECFilingDownloader.__init__ env (Some k) None o tr = Ret w ->
        output_folder_10q (self w) = None)
  /\ (forall w,
        SECFilingDownloader.__init__ env None (Some q) o tr = Ret w ->
        output_folder_10k (self w) = None)
  /\ ((forall past e, fs_ok env past e = true) ->
      (exists w,
          SECFilingDownloader.__init__ env None None (Some shared) tr = Ret w
          /\ output_folder_10k (self w) = Some (path_new env shared)
          /\ output_folder_10q (self w) = Some (path_new env shared))
      /\ (exists w,
             SECFilingDownloader.__init__ env (Some k) None o tr = Ret w
             /\ output_folder_10k (self w)
                = (if String.eqb k "" then None else Some (path_new env k))
             /\ output_folder_10q (self w) = None)
      /\ (exists w,
             SECFilingDownloader.__init__ env None (Some q) o tr = Ret w
             /\ output_folder_10k (self w) = None
             /\ output_folder_10q (self w)
                = (if String.eqb q "" then None else Some (path_new env q)))).
Proof.
  assert (Ek : SECFilingDownloader.init_folders env (Some k) None o
               = Ret (if String.eqb k "" then None else Some (path_new env k), None)).
  { unfold SECFilingDownloader.init_folders. cbn [Py.truthy option_map].
    destruct o; destruct (String.eqb k ""); reflexivity. }
  assert (Eq : SECFilingDownloader.init_folders env None (Some q) o
               = Ret (None, if String.eqb q "" then None else Some (path_new env q))).
  { unfold SECFilingDownloader.init_folders. cbn [Py.truthy option_map].
    destruct o; destruct (String.eqb q ""); reflexivity. }
  do 5 (split; [first [reflexivity | assumption]|]).
  split; [|split; [|split; [|intros Hfs; split; [|split]]]].
  - intros w Hw. pose proof (init_outcome env None None (Some shared) tr) as H.
    rewrite Hw in H. cbn in H. injection H as <- <-. split; reflexivity.
  - intros w Hw. pose proof (init_outcome env (Some k) None o tr) as H.
    rewrite Hw, Ek in H. now injection H as _ <-.
  - intros w Hw. pose proof (init_outcome env None (Some q) o tr) as H.
    rewrite Hw, Eq in H. now injection H as <- _.
  - apply init_succeeds; [reflexivity | exact Hfs].
  - apply init_succeeds; [exact Ek | exact Hfs].
  - apply init_succeeds; [exact Eq | exact Hfs].
Qed.

Lemma C9_constructor_folders_witness :
  (exists w,
      SECFilingDownloader.__init__ Fixture.env None None (Some "out") [] = Ret w
      /\ output_folder_10k (self w) = Some "out"
      /\ output_folder_10q (self w) = Some "out")
  /\ (exists w,
         SECFilingDownloader.__init__ Fixture.env (Some "annual") None (Some "out") []
         = Ret w
         /\ output_folder_10k (self w) = Some "annual"
         /\ output_folder_10q (self w) = None).
Proof.
  destruct (C9_constructor_folders Fixture.env "out" "annual" "q" (Some "out") [])
    as (_ & _ & _ & _ & _ & _ & _ & _ & H).
  destruct (H ltac:(reflexivity)) as (H1 & H2 & _).
  split; [exact H1 | exact H2].
Defined.

(** A directory name with a null byte: the [mkdir] of the constructor
    raises [ValueError] although a folder is given. *)
Example init_null_byte :
  SECFilingDownloader.__init__ Fixture.null_byte_env None None (Some "a") []
  = Raise ValueError.
Proof. reflexivity. Qed.

(* ===================================================================== *)
(** ** The identifier table and [_get_cik] *)
(* ===================================================================== *)

Section Resolver.
Import SECFilingDownloader.

Lemma upper_char_idem (c : ascii) : Py.upper_char (Py.upper_char c) = Py.upper_char c.
Proof. destruct c as [[] [] [] [] [] [] [] []]; reflexivity. Qed.

Lemma upper_idem (s : string) : Py.upper (Py.upper s) = Py.upper s.
Proof.
  induction s as [|c r IH]; [reflexivity|].
  cbn [Py.upper]. now rewrite upper_char_idem, IH.
Qed.

Lemma length_append (s1 s2 : string) :
  String.length (s1 ++ s2) = (String.length s1 + String.length s2)%nat.
Proof. induction s1 as [|c r IH]; [reflexivity|]. simpl. now rewrite IH. Qed.

Lemma zeros_length (n : nat) : String.length (Py.zeros n) = n.
Proof. induction n as [|n IH]; [reflexivity|]. simpl. now rewrite IH. Qed.

Lemma zfill_length (width : nat) (s : string) :
  String.length (Py.zfill width s) = Nat.max width (String.length s).
Proof.
  unfold Py.zfill. destruct s as [|c r].
  - rewrite zeros_length. simpl. lia.
  - destruct (Ascii.eqb c "-" || Ascii.eqb c "+").
    + cbn [String.length]. rewrite length_append, zeros_length. cbn [String.length]. lia.
    + rewrite length_append, zeros_length. cbn [String.length]. lia.
Qed.

Lemma table_ok_empty : table_ok ∅.
Proof. intros k v H. rewrite lookup_empty in H. discriminate H. Qed.

Lemma table_ok_insert (table : gmap string string) (ticker : string) (n : Z) :
  table_ok table ->
  table_ok (<[Py.upper ticker := Py.zfill 10 (Py.str n)]> table).
Proof.
  intros Hok k v H. destruct (decide (Py.upper ticker = k)) as [<-|Hne].
  - rewrite lookup_insert_eq in H. injection H as <-.
    split; [apply upper_idem|]. rewrite zfill_length. lia.
  - rewrite lookup_insert_ne in H by exact Hne. now apply Hok.
Qed.

Lemma table_ok_load (entries : list (string * Z)) (table : gmap string string) :
  table_ok table ->
  table_ok (fold_left
              (fun (table : gmap string string) (entry : string * Z) =>
                 <[Py.upper (fst entry) := Py.zfill 10 (Py.str (snd entry))]> table)
              entries table).
Proof.
  revert table. induction entries as [|[t c] entries IH]; intros table Hok; [exact Hok|].
  cbn [fold_left fst snd]. apply IH. now apply table_ok_insert.
Qed.

Lemma load_cik_lookup_table_ok (env : Env) (w : World) :
  table_ok (cik_lookup (self w)) ->
  table_ok (cik_lookup (self (_load_cik_lookup env w))).
Proof.
  intros Hok. unfold _load_cik_lookup, get.
  destruct (http_get env (trace w) SEC_EDGAR_CIK_LOOKUP) as [[status body]|];
    [|apply table_ok_empty].
  destruct (raise_for_status status); [apply table_ok_empty|].
  destruct (json_tickers env body) as [entries|]; [|apply table_ok_empty].
  cbn [set_cik_lookup self cik_lookup log]. now apply table_ok_load.
Qed.

Lemma init_table_ok (env : Env) (k q o : option string) (tr : list event) (w : World) :
  __init__ env k q o tr = Ret w -> table_ok (cik_lookup (self w)).
Proof.
  unfold __init__.
  destruct (init_folders env k q o) as [[f10k f10q]|e]; [|discriminate].
  destruct (mkdir_root env f10k tr) as [[[]|e] tr1]; [|discriminate].
  destruct (mkdir_root env f10q tr1) as [[[]|e] tr2]; [|discriminate].
  intros [= <-]. apply load_cik_lookup_table_ok. apply table_ok_empty.
Qed.

(** The outcomes of [_get_cik], one by one. *)
Lemma get_cik_cases (env : Env) (ticker : string) (w : World) :
  (exists cik, cik_lookup (self w) !! Py.upper ticker = Some cik
               /\ _get_cik env ticker w = (Some cik, w))
  \/ (cik_lookup (self w) !! Py.upper ticker = None
      /\ _get_cik env ticker w = (None, log (Get (search_url ticker)) w))
  \/ (exists n : Z,
        cik_lookup (self w) !! Py.upper ticker = None
        /\ _get_cik env ticker w
           = (Some (Py.zfill 10 (Py.str n)),
              set_cik_lookup
                (<[Py.upper ticker := Py.zfill 10 (Py.str n)]> (cik_lookup (self w)))
                (log (Get (search_url ticker)) w))).
Proof.
  unfold _get_cik, get.
  destruct (cik_lookup (self w) !! Py.upper ticker) as [cik|] eqn:E.
  - left. exists cik. split; reflexivity.
  - right.
    destruct (http_get env (trace w) (search_url ticker)) as [[status text]|];
      [|left; split; reflexivity].
    destruct (raise_for_status status); [left; split; reflexivity|].
    destruct (search_cik text) as [g|]; [|left; split; reflexivity].
    destruct (Py.int_limited g) as [n|]; [|left; split; reflexivity].
    right. exists n. split; reflexivity.
Qed.

Lemma get_cik_table_ok (env : Env) (ticker : string) (w : World) :
  table_ok (cik_lookup (self w)) ->
  table_ok (cik_lookup (self (snd (_get_cik env ticker w)))).
Proof.
  intros Hok.
  destruct (get_cik_cases env ticker w) as [(cik & _ & ->) | [[_ ->] | (n & _ & ->)]];
    cbn [snd self cik_lookup log set_cik_lookup]; try exact Hok.
  now apply table_ok_insert.
Qed.

Lemma get_cik_folders (env : Env) (ticker : string) (w : World) :
  output_folder_10k (self (snd (_get_cik env ticker w))) = output_folder_10k (self w)
  /\ output_folder_10q (self (snd (_get_cik env ticker w))) = output_folder_10q (self w).
Proof.
  destruct (get_cik_cases env ticker w) as [(cik & _ & ->) | [[_ ->] | (n & _ & ->)]];
    split; reflexivity.
Qed.

End Resolver.

Section ResolverProps.
Import SECFilingDownloader.

Lemma only_requests_refl (w : World) : only_requests w w.
Proof.
  split; [|split; reflexivity]. exists []. split; [now rewrite app_nil_r | reflexivity].
Qed.

Lemma only_requests_trans (w1 w2 w3 : World) :
  only_requests w1 w2 -> only_requests w2 w3 -> only_requests w1 w3.
Proof.
  intros [(g1 & E1 & F1) [A1 B1]] [(g2 & E2 & F2) [A2 B2]].
  split; [|split; congruence].
  exists (g1 ++ g2)%list. split.
  - rewrite E2, E1. now rewrite app_assoc.
  - rewrite forallb_app, F1, F2. reflexivity.
Qed.

Lemma only_requests_log (w : World) (url : string) : only_requests w (log (Get url) w).
Proof. split; [|split; reflexivity]. exists [Get url]. split; reflexivity. Qed.

Lemma only_requests_get_cik (env : Env) (ticker : string) (w : World) :
  only_requests w (snd (_get_cik env ticker w)).
Proof.
  destruct (get_cik_cases env ticker w) as [(cik & _ & ->) | [[_ ->] | (n & _ & ->)]];
    cbn [snd].
  - apply only_requests_refl.
  - apply only_requests_log.
  - split; [|split; reflexivity]. exists [Get (search_url ticker)]. split; reflexivity.
Qed.

Lemma get_filings_metadata_world (env : Env) (cik filing_type : string) (w : World) :
  snd (_get_filings_metadata env cik filing_type w)
  = log (Get (SEC_EDGAR_SUBMISSIONS cik)) w.
Proof.
  unfold _get_filings_metadata, get.
  destruct (http_get env (trace w) (SEC_EDGAR_SUBMISSIONS cik)) as [[status body]|];
    [|reflexivity].
  destruct (raise_for_status status); [reflexivity|].
  destruct (json_recent env body); reflexivity.
Qed.

Lemma fold_insert_last (entries : list (string * Z)) :
  forall (table : gmap string string) (key cik : string),
  table !! key = Some cik ->
  List.Forall (fun entry : string * Z => Py.upper (fst entry) <> key) entries ->
  fold_left
    (fun (table : gmap string string) (entry : string * Z) =>
       <[Py.upper (fst entry) := Py.zfill 10 (Py.str (snd entry))]> table)
    entries table !! key = Some cik.
Proof.
  induction entries as [|[t c] entries IH]; intros table key cik Hk Hne; [exact Hk|].
  cbn [fold_left fst snd]. inversion Hne as [|? ? Ht Hrest]; subst. cbn [fst] in Ht.
  apply IH; [|exact Hrest]. now rewrite lookup_insert_ne.
Qed.

End ResolverProps.

(** X1. A symbol that [_get_cik] has resolved, from the table or by the
    search, is answered from the table from then on: a second lookup of
    the symbol, in any letter case, returns the same identifier, sends no
    request and changes nothing. *)
Theorem X1_get_cik_cached_after_success (env : Env) (ticker ticker' cik : string)
  (w w1 : World) :
  SECFilingDownloader._get_cik env ticker w = (Some cik, w1) ->
  Py.upper ticker' = Py.upper ticker ->
  SECFilingDownloader._get_cik env ticker' w1 = (Some cik, w1).
Proof.
  intros H Hup.
  assert (L : cik_lookup (self w1) !! Py.upper ticker' = Some cik).
  { rewrite Hup.
    destruct (get_cik_cases env ticker w) as [(c & Hc & E) | [[_ E] | (n & _ & E)]];
      rewrite E in H.
    - injection H as <- <-. exact Hc.
    - discriminate H.
    - injection H as <- <-. cbn [self set_cik_lookup cik_lookup]. apply lookup_insert_eq. }
  unfold SECFilingDownloader._get_cik. now rewrite L.
Qed.

Lemma X1_get_cik_cached_after_success_witness :
  SECFilingDownloader._get_cik Fixture.env "zt" Fixture.world
  = (Some "0000001234", Fixture.world).
Proof.
  apply (X1_get_cik_cached_after_success Fixture.env "ZT" "zt" "0000001234"
           Fixture.world Fixture.world); vm_compute; reflexivity.
Defined.

(** X2. A lookup that fails sends exactly one request, the search for the
    symbol, and changes nothing else: the failure is not remembered, so
    the next lookup of the symbol, in any letter case, sends the search
    request again. *)
Theorem X2_get_cik_failure_not_cached (env : Env) (ticker ticker' : string)
  (w w1 : World) :
  SECFilingDownloader._get_cik env ticker w = (None, w1) ->
  Py.upper ticker' = Py.upper ticker ->
  w1 = log (Get (SECFilingDownloader.search_url ticker)) w
  /\ cik_lookup (self w1) !! Py.upper ticker = None
  /\ trace (snd (SECFilingDownloader._get_cik env ticker' w1))
     = (trace w1 ++ [Get (SECFilingDownloader.search_url ticker')])%list.
Proof.
  intros H Hup.
  destruct (get_cik_cases env ticker w) as [(c & Hc & E) | [[Hn E] | (n & _ & E)]];
    rewrite E in H; [discriminate H | | discriminate H].
  injection H as <-. split; [reflexivity|]. split; [exact Hn|].
  destruct (get_cik_cases env ticker' (log (Get (SECFilingDownloader.search_url ticker)) w))
    as [(c & Hc & _) | [[_ ->] | (n & _ & ->)]]; [|reflexivity..].
  cbn [log self] in Hc. rewrite Hup, Hn in Hc. discriminate Hc.
Qed.

Lemma X2_get_cik_failure_not_cached_witness :
  snd (SECFilingDownloader._get_cik Fixture.env "QQ" Fixture.world)
  = log (Get (SECFilingDownloader.search_url "QQ")) Fixture.world.
Proof.
  destruct (X2_get_cik_failure_not_cached Fixture.env "QQ" "qq" Fixture.world
              (snd (SECFilingDownloader._get_cik Fixture.env "QQ" Fixture.world)))
    as [E _].
  - vm_compute. reflexivity.
  - reflexivity.
  - exact E.
Defined.

Section ResolverSearch.
Import SECFilingDownloader.

(** What the code relies on for a decimal digit. *)
Lemma digit_facts (c : ascii) :
  is_digit c = true ->
  Py.is_space c = false
  /\ Ascii.eqb c "-" = false /\ Ascii.eqb c "+" = false /\ Ascii.eqb c "_" = false
  /\ exists d : Z, Py.digit_val c = Some d /\ 0 <= d <= 9.
Proof.
  destruct c as [[] [] [] [] [] [] [] []]; intros H; try discriminate H;
    (do 4 (split; [reflexivity|])); eexists;
    (split; [reflexivity | vm_compute; split; discriminate]).
Qed.

Lemma digit_not_space_c (c : ascii) : is_digit c = true -> Py.is_space_c c = false.
Proof.
  destruct c as [[] [] [] [] [] [] [] []]; intros H; try discriminate H; reflexivity.
Qed.

Lemma take_digits_all_digits (s : string) : all_digits (take_digits s) = true.
Proof.
  induction s as [|c r IH]; [reflexivity|]. cbn [take_digits].
  destruct (is_digit c) eqn:E; [|reflexivity]. cbn [all_digits]. now rewrite E, IH.
Qed.

Lemma search_cik_digits (text g : string) :
  search_cik text = Some g -> g <> "" /\ all_digits g = true.
Proof.
  induction text as [|c r IH]; [discriminate|]. cbn [search_cik].
  set (group1 := take_digits _).
  destruct (Py.startswith "CIK=" (String c r) && negb (String.eqb group1 "")) eqn:E;
    [|exact IH].
  intros [= <-]. apply andb_true_iff in E as [_ E]. split.
  - intros Hg. rewrite Hg in E. discriminate E.
  - apply take_digits_all_digits.
Qed.

Lemma rstrip_digits (s : string) : all_digits s = true -> Py.rstrip_c s = s.
Proof.
  induction s as [|c r IH]; [reflexivity|]. cbn [all_digits Py.rstrip_c].
  intros H. apply andb_true_iff in H as [Hc Hr]. rewrite (IH Hr).
  destruct r; [|reflexivity].
  now rewrite (digit_not_space_c c Hc).
Qed.

Lemma count_digits_le (s : string) : (Py.count_digits s <= String.length s)%nat.
Proof.
  induction s as [|c r IH]; [reflexivity|]. cbn [Py.count_digits String.length].
  destruct (Py.digit_val c); lia.
Qed.

Lemma count_digits_all (s : string) :
  all_digits s = true -> Py.count_digits s = String.length s.
Proof.
  induction s as [|c r IH]; [reflexivity|]. cbn [all_digits Py.count_digits String.length].
  intros H. apply andb_true_iff in H as [Hc Hr].
  destruct (digit_facts c Hc) as (_ & _ & _ & _ & d & -> & _). now rewrite (IH Hr).
Qed.

(** Within 4300 characters the guard of [int_limited] does not apply. *)
Lemma int_limited_short (s : string) :
  (String.length s <= Py.MAX_STR_DIGITS)%nat -> Py.int_limited s = Py.int s.
Proof.
  intros H. unfold Py.int_limited. pose proof (count_digits_le s) as Hc.
  destruct (Nat.ltb_spec Py.MAX_STR_DIGITS (Py.count_digits s)); [lia | reflexivity].
Qed.

Lemma digits_value (s : string) : forall (acc : Z) (after_digit : bool),
  all_digits s = true -> s <> "" -> 0 <= acc ->
  exists n : Z, 0 <= n /\ Py.digits s acc after_digit = Some n.
Proof.
  induction s as [|c r IH]; intros acc after_digit Hs Hne Hacc; [contradiction|].
  cbn [all_digits] in Hs. apply andb_true_iff in Hs as [Hc Hr].
  destruct (digit_facts c Hc) as (_ & _ & _ & Hu & d & Hd & Hrange).
  cbn [Py.digits]. rewrite Hu, Hd.
  destruct r as [|c' r'].
  - cbn [Py.digits]. exists (10 * acc + d). split; [lia | reflexivity].
  - apply IH; [exact Hr | discriminate | lia].
Qed.

(** [int] does not fail on a non-empty string of digits. *)
Lemma int_of_digits (g : string) :
  all_digits g = true -> g <> "" -> exists n : Z, 0 <= n /\ Py.int g = Some n.
Proof.
  intros Hg Hne. unfold Py.int. rewrite (rstrip_digits g Hg).
  destruct g as [|c r]; [contradiction|].
  pose proof Hg as Hg'. cbn [all_digits] in Hg'. apply andb_true_iff in Hg' as [Hc _].
  destruct (digit_facts c Hc) as (_ & Hm & Hp & _).
  cbn [Py.lstrip_c]. rewrite (digit_not_space_c c Hc), Hm, Hp.
  apply digits_value; [exact Hg | discriminate | lia].
Qed.

Lemma get_cik_value (env : Env) (ticker cik : string) (w : World) :
  table_ok (cik_lookup (self w)) ->
  fst (_get_cik env ticker w) = Some cik -> (10 <= String.length cik)%nat.
Proof.
  intros Hok.
  destruct (get_cik_cases env ticker w) as [(c & Hc & ->) | [[_ ->] | (n & _ & ->)]];
    cbn [fst]; intros [= <-].
  - apply (Hok _ _ Hc).
  - rewrite zfill_length. lia.
Qed.

End ResolverSearch.

(** X4. When the symbol is not in the table, the search request is
    answered with a status outside 400..599 and the body has a match of
    [CIK=] followed by digits, the matched group is a non-empty digit
    string. If it has at most 4300 digits, the lookup cannot fail: [int]
    reads the group as some number [n >= 0], and [_get_cik] returns [n]
    written with at least ten digits and stores it in the table under
    the upper-cased symbol. If it has more than 4300 digits, [int] raises,
    the lookup returns [None] and nothing is stored. *)
Theorem X4_get_cik_search_match (env : Env) (ticker text group1 : string)
  (status : Z) (w : World) :
  cik_lookup (self w) !! Py.upper ticker = None ->
  http_get env (trace w) (SECFilingDownloader.search_url ticker) = Some (status, text) ->
  raise_for_status status = false ->
  SECFilingDownloader.search_cik text = Some group1 ->
  group1 <> "" /\ all_digits group1 = true
  /\ ((String.length group1 <= 4300)%nat ->
      exists n : Z,
        0 <= n /\ Py.int group1 = Some n
        /\ (10 <= String.length (Py.zfill 10 (Py.str n)))%nat
        /\ SECFilingDownloader._get_cik env ticker w
           = (Some (Py.zfill 10 (Py.str n)),
              set_cik_lookup
                (<[Py.upper ticker := Py.zfill 10 (Py.str n)]> (cik_lookup (self w)))
                (log (Get (SECFilingDownloader.search_url ticker)) w)))
  /\ ((4300 < String.length group1)%nat ->
      SECFilingDownloader._get_cik env ticker w
      = (None, log (Get (SECFilingDownloader.search_url ticker)) w)).
Proof.
  intros Hmiss Hget Hstatus Hsearch.
  destruct (search_cik_digits text group1 Hsearch) as [Hne Hdig].
  split; [exact Hne|]. split; [exact Hdig|]. split.
  - intros Hlen.
    destruct (int_of_digits group1 Hdig Hne) as (n & Hn & Hint).
    exists n. split; [exact Hn|]. split; [exact Hint|].
    split; [rewrite zfill_length; lia|].
    unfold SECFilingDownloader._get_cik, get.
    rewrite Hmiss, Hget, Hstatus, Hsearch.
    rewrite int_limited_short by (unfold Py.MAX_STR_DIGITS; lia).
    now rewrite Hint.
  - intros Hlen.
    unfold SECFilingDownloader._get_cik, get.
    rewrite Hmiss, Hget, Hstatus, Hsearch.
    unfold Py.int_limited. rewrite (count_digits_all group1 Hdig).
    destruct (Nat.ltb_spec Py.MAX_STR_DIGITS (String.length group1)) as [_|H];
      [reflexivity | unfold Py.MAX_STR_DIGITS in H; lia].
Qed.

Lemma X4_get_cik_search_match_witness :
  exists n : Z,
    fst (SECFilingDownloader._get_cik
           {| http_get := fun _ _ => Some (200, "<a href=x?CIK=0000320193&y>");
              json_tickers := json_tickers Fixture.env;
              json_recent := json_recent Fixture.env;
              soup_hrefs := soup_hrefs Fixture.env;
              soup_text := soup_text Fixture.env;
              path_new := path_new Fixture.env;
              path_join := path_join Fixture.env;
              fs_ok := fs_ok Fixture.env;
              fs_error := fs_error Fixture.env |}
           "aapl" Fixture.world) = Some (Py.zfill 10 (Py.str n)).
Proof.
  destruct (X4_get_cik_search_match
              {| http_get := fun _ _ => Some (200, "<a href=x?CIK=0000320193&y>");
                 json_tickers := json_tickers Fixture.env;
                 json_recent := json_recent Fixture.env;
                 soup_hrefs := soup_hrefs Fixture.env;
                 soup_text := soup_text Fixture.env;
                 path_new := path_new Fixture.env;
                 path_join := path_join Fixture.env;
                 fs_ok := fs_ok Fixture.env;
                 fs_error := fs_error Fixture.env |}
              "aapl" "<a href=x?CIK=0000320193&y>" "0000320193" 200 Fixture.world)
    as (_ & _ & H & _).
  - vm_compute. reflexivity.
  - reflexivity.
  - reflexivity.
  - vm_compute. reflexivity.
  - destruct H as (n & _ & _ & _ & E); [vm_compute; lia|].
    exists n. now rewrite E.
Defined.

(** X5. After the table has been loaded from a well-formed answer, every
    listed symbol resolves from the table in any letter case, without a
    request: the identifier is the number of the last entry for that
    symbol, written with at least ten digits. *)
Theorem X5_loaded_symbol_resolves (env : Env) (w : World) (status : Z) (body : string)
  (before after : list (string * Z)) (ticker ticker' : string) (cik_str : Z) :
  http_get env (trace w) SEC_EDGAR_CIK_LOOKUP = Some (status, body) ->
  raise_for_status status = false ->
  json_tickers env body = Some (before ++ (ticker, cik_str) :: after)%list ->
  List.Forall (fun entry : string * Z => Py.upper (fst entry) <> Py.upper ticker) after ->
  Py.upper ticker' = Py.upper ticker ->
  SECFilingDownloader._get_cik env ticker' (SECFilingDownloader._load_cik_lookup env w)
  = (Some (Py.zfill 10 (Py.str cik_str)), SECFilingDownloader._load_cik_lookup env w).
Proof.
  intros Hget Hstatus Hjson Hlast Hup.
  assert (L : cik_lookup (self (SECFilingDownloader._load_cik_lookup env w))
              !! Py.upper ticker' = Some (Py.zfill 10 (Py.str cik_str))).
  { unfold SECFilingDownloader._load_cik_lookup, get.
    rewrite Hget, Hstatus, Hjson. cbn [set_cik_lookup self cik_lookup log].
    rewrite fold_left_app. cbn [fold_left fst snd]. rewrite Hup.
    apply fold_insert_last; [apply lookup_insert_eq | exact Hlast]. }
  unfold SECFilingDownloader._get_cik. now rewrite L.
Qed.

Lemma X5_loaded_symbol_resolves_witness :
  SECFilingDownloader._get_cik Fixture.env "Zt"
    (SECFilingDownloader._load_cik_lookup Fixture.env
       {| self := {| output_folder_10k := None; output_folder_10q := None;
                     cik_lookup := ∅ |};
          trace := [] |})
  = (Some "0000001234",
     SECFilingDownloader._load_cik_lookup Fixture.env
       {| self := {| output_folder_10k := None; output_folder_10q := None;
                     cik_lookup := ∅ |};
          trace := [] |}).
Proof.
  apply (X5_loaded_symbol_resolves Fixture.env _ 200 "tickers" [] [] "zt" "Zt" 1234);
    try reflexivity.
  constructor.
Defined.

(* ===================================================================== *)
(** ** What [download_filing] and [download_batch] do as a whole *)
(* ===================================================================== *)

Section Batch.
Import SECFilingDownloader.

Lemma download_filing_effects (env : Env) (ticker filing_type : string)
  (year quarter : option Z) (download_all : bool) (w : World) :
  (fst (download_filing env ticker filing_type year quarter download_all w) = Ret false
   \/ fst (download_filing env ticker filing_type year quarter download_all w)
      = Raise AttributeError)
  /\ only_requests w (snd (download_filing env ticker filing_type year quarter download_all w))
  /\ (table_ok (cik_lookup (self w)) ->
      table_ok (cik_lookup
                  (self (snd (download_filing env ticker filing_type year quarter
                                download_all w))))).
Proof.
  unfold download_filing.
  destruct (negb (valid_filing_type filing_type));
    [split; [now left | split; [apply only_requests_refl | tauto]]|].
  destruct (String.eqb filing_type "10-Q" && _);
    [split; [now left | split; [apply only_requests_refl | tauto]]|].
  pose proof (only_requests_get_cik env ticker w) as Hreq.
  pose proof (get_cik_table_ok env ticker w) as Htab.
  destruct (_get_cik env ticker w) as [[cik|] w1]; cbn [snd] in Hreq, Htab;
    [|split; [now left | split; assumption]].
  destruct (negb (Py.truthy (Some cik))); [split; [now left | split; assumption]|].
  pose proof (get_filings_metadata_world env cik filing_type w1) as Hw2.
  destruct (_get_filings_metadata env cik filing_type w1) as [[|f fs] w2];
    cbn [snd] in Hw2; subst w2; cbn [fst snd current_year].
  - split; [now left|]. split; [|exact Htab].
    eapply only_requests_trans; [exact Hreq | apply only_requests_log].
  - split; [now right|]. split; [|exact Htab].
    eapply only_requests_trans; [exact Hreq | apply only_requests_log].
Qed.

Lemma batch_post_ret (results : gmap string bool) (w : World) :
  all_false results -> batch_post results w [] (Ret results, w).
Proof.
  intros Hf. split; [apply only_requests_refl|]. split; [tauto|].
  cbn [fst]. split; [exact Hf|]. split; [tauto|]. intros k [].
Qed.

Lemma all_false_insert (results : gmap string bool) (key : string) :
  all_false results -> all_false (<[key := false]> results).
Proof.
  intros Hf k v H. destruct (decide (key = k)) as [<-|Hne].
  - rewrite lookup_insert_eq in H. now injection H.
  - rewrite lookup_insert_ne in H by exact Hne. now apply (Hf k).
Qed.

Lemma is_Some_insert (results : gmap string bool) (key k : string) (v : bool) :
  is_Some (results !! k) -> is_Some (<[key := v]> results !! k).
Proof.
  intros H. destruct (decide (key = k)) as [<-|Hne].
  - rewrite lookup_insert_eq. eauto.
  - now rewrite lookup_insert_ne.
Qed.

(** Sequencing two parts of a batch. *)
Lemma batch_post_seq (results : gmap string bool) (w : World) (keys1 keys2 : list string)
  (r1 : res (gmap string bool) * World)
  (k : gmap string bool -> World -> res (gmap string bool) * World) :
  batch_post results w keys1 r1 ->
  (forall m w1, all_false m -> batch_post m w1 keys2 (k m w1)) ->
  batch_post results w (keys1 ++ keys2)%list
    (match r1 with
     | (Raise e, w1) => (Raise e, w1)
     | (Ret m, w1) => k m w1
     end).
Proof.
  intros (Hreq1 & Htab1 & H1) Hk. destruct r1 as [[m|e] w1]; cbn [fst snd] in *.
  - destruct H1 as (Hf & Hdom & Hkeys).
    destruct (Hk m w1 Hf) as (Hreq2 & Htab2 & H2).
    split; [eapply only_requests_trans; eassumption|]. split; [tauto|].
    destruct (fst (k m w1)) as [m'|e']; [|exact H2].
    destruct H2 as (Hf' & Hdom' & Hkeys'). split; [exact Hf'|]. split.
    + intros key Hs. apply Hdom', Hdom, Hs.
    + intros key Hin. apply in_app_or in Hin as [Hin|Hin]; [|now apply Hkeys'].
      destruct (Hdom' key) as [v Hv]; [rewrite (Hkeys key Hin); eauto|].
      rewrite Hv. f_equal. now apply (Hf' key).
  - split; [exact Hreq1|]. split; [exact Htab1|]. exact H1.
Qed.

(** One call of [download_filing] followed by the entry in the mapping. *)
Lemma batch_post_call (env : Env) (ticker filing_type key : string)
  (year : option Z) (download_all : bool) (results : gmap string bool) (w : World) :
  all_false results ->
  batch_post results w [key]
    (match download_filing env ticker filing_type year None download_all w with
     | (Raise e, w1) => (Raise e, w1)
     | (Ret ok, w1) => (Ret (<[key := ok]> results), w1)
     end).
Proof.
  intros Hf.
  destruct (download_filing_effects env ticker filing_type year None download_all w)
    as (Hr & Hreq & Htab).
  destruct (download_filing env ticker filing_type year None download_all w)
    as [[ok|e] w1]; cbn [fst snd] in *.
  - destruct Hr as [[= ->]|Hr]; [|discriminate Hr].
    split; [exact Hreq|]. split; [exact Htab|]. cbn [fst].
    split; [now apply all_false_insert|]. split; [intros k; apply is_Some_insert|].
    intros k [<-|[]]. apply lookup_insert_eq.
  - destruct Hr as [Hr|[= ->]]; [discriminate Hr|].
    split; [exact Hreq|]. split; [exact Htab|]. reflexivity.
Qed.

Lemma batch_years_post (env : Env) (ticker filing_type : string) (years : list Z) :
  forall (results : gmap string bool) (w : World),
  all_false results ->
  batch_post results w
    (List.map (fun year => ticker ++ "-" ++ filing_type ++ "-" ++ Py.str year) years)
    (batch_years env ticker filing_type years results w).
Proof.
  induction years as [|year rest IH]; intros results w Hf; [now apply batch_post_ret|].
  cbn [batch_years List.map].
  pose proof (batch_post_call env ticker filing_type
                (ticker ++ "-" ++ filing_type ++ "-" ++ Py.str year)
                (Some year) false results w Hf) as Hcall.
  pose proof (batch_post_seq results w _ _ _
                (fun m w1 => batch_years env ticker filing_type rest m w1)
                Hcall (fun m w1 Hm => IH m w1 Hm)) as Hseq.
  cbn [app] in Hseq.
  destruct (download_filing env ticker filing_type (Some year) None false w)
    as [[ok|e] w1]; exact Hseq.
Qed.

Lemma batch_unit_post (env : Env) (years : option (list Z)) (download_all : bool)
  (ticker filing_type : string) (results : gmap string bool) (w : World) :
  all_false results ->
  batch_post results w (unit_keys years download_all ticker filing_type)
    (batch_unit env years download_all ticker filing_type results w).
Proof.
  intros Hf. unfold batch_unit, unit_keys.
  destruct download_all; [now apply batch_post_call|].
  destruct years as [[|year rest]|]; try now apply batch_post_call.
  now apply batch_years_post.
Qed.

Lemma batch_types_post (env : Env) (years : option (list Z)) (download_all : bool)
  (ticker : string) (filing_types : list string) :
  forall (results : gmap string bool) (w : World),
  all_false results ->
  batch_post results w
    (List.concat (List.map (unit_keys years download_all ticker) filing_types))
    (batch_types env years download_all ticker filing_types results w).
Proof.
  induction filing_types as [|filing_type rest IH]; intros results w Hf;
    [now apply batch_post_ret|].
  cbn [batch_types List.map List.concat].
  pose proof (batch_post_seq results w _ _ _
                (fun m w1 => batch_types env years download_all ticker rest m w1)
                (batch_unit_post env years download_all ticker filing_type results w Hf)
                (fun m w1 Hm => IH m w1 Hm)) as Hseq.
  destruct (batch_unit env years download_all ticker filing_type results w)
    as [[m|e] w1]; exact Hseq.
Qed.

Lemma batch_tickers_post (env : Env) (years : option (list Z)) (download_all : bool)
  (filing_types tickers : list string) :
  forall (results : gmap string bool) (w : World),
  all_false results ->
  batch_post results w
    (List.concat
       (List.map (fun ticker =>
                    List.concat (List.map (unit_keys years download_all ticker) filing_types))
                 tickers))
    (batch_tickers env years download_all filing_types tickers results w).
Proof.
  induction tickers as [|ticker rest IH]; intros results w Hf;
    [now apply batch_post_ret|].
  cbn [batch_tickers List.map List.concat].
  pose proof (batch_post_seq results w _ _ _
                (fun m w1 => batch_tickers env years download_all filing_types rest m w1)
                (batch_types_post env years download_all ticker filing_types results w Hf)
                (fun m w1 Hm => IH m w1 Hm)) as Hseq.
  destruct (batch_types env years download_all ticker filing_types results w)
    as [[m|e] w1]; exact Hseq.
Qed.

Lemma all_false_empty : all_false ∅.
Proof. intros k v H. rewrite lookup_empty in H. discriminate H. Qed.

Lemma download_batch_post (env : Env) (tickers filing_types : list string)
  (years : option (list Z)) (download_all : bool) (w : World) :
  batch_post ∅ w
    (List.concat
       (List.map (fun ticker =>
                    List.concat (List.map (unit_keys years download_all ticker) filing_types))
                 tickers))
    (download_batch env tickers filing_types years download_all w).
Proof. apply batch_tickers_post, all_false_empty. Qed.

End Batch.

(** X3. The identifier table keeps its shape: the constructor builds a
    table whose keys are in upper case and whose identifiers have at
    least ten characters, and [_get_cik], [download_filing] and
    [download_batch] keep it so. On such a table a resolved identifier is
    never the empty string, so the test [if not cik] of [download_filing]
    only ever rejects [None]. *)
Theorem X3_table_shape_kept (env : Env) (w : World)
  (ticker filing_type : string) (year quarter : option Z) (download_all : bool)
  (tickers filing_types : list string) (years : option (list Z)) :
  table_ok (cik_lookup (self w)) ->
  (forall k q o tr w0,
      SECFilingDownloader.__init__ env k q o tr = Ret w0 ->
      table_ok (cik_lookup (self w0)))
  /\ table_ok (cik_lookup (self (snd (SECFilingDownloader._get_cik env ticker w))))
  /\ table_ok (cik_lookup (self (snd (SECFilingDownloader.download_filing env ticker
                                         filing_type year quarter download_all w))))
  /\ table_ok (cik_lookup (self (snd (SECFilingDownloader.download_batch env tickers
                                         filing_types years download_all w))))
  /\ (forall cik,
        fst (SECFilingDownloader._get_cik env ticker w) = Some cik ->
        (10 <= String.length cik)%nat /\ Py.truthy (Some cik) = true).
Proof.
  intros Hok. split; [intros k q o tr w0; apply init_table_ok|].
  split; [now apply get_cik_table_ok|].
  split; [now apply download_filing_effects|].
  split; [now apply (download_batch_post env tickers filing_types years download_all w)|].
  intros cik H. pose proof (get_cik_value env ticker cik w Hok H) as Hlen.
  split; [exact Hlen|]. destruct cik; [simpl in Hlen; lia | reflexivity].
Qed.

Lemma X3_table_shape_kept_witness :
  table_ok (cik_lookup (self (snd (SECFilingDownloader.download_batch Fixture.env
                                     ["ZT"; "QQ"] ["10-K"] None false
                                     {| self := {| output_folder_10k := Some "out";
                                                   output_folder_10q := Some "out";
                                                   cik_lookup := ∅ |};
                                        trace := [] |})))).
Proof.
  apply (X3_table_shape_kept Fixture.env
           {| self := {| output_folder_10k := Some "out";
                         output_folder_10q := Some "out";
                         cik_lookup := ∅ |};
              trace := [] |}
           "ZT" "10-K" None None false ["ZT"; "QQ"] ["10-K"] None).
  intros k v H. cbn [self cik_lookup] in H. rewrite lookup_empty in H. discriminate H.
Defined.

(** X6. No call of [download_filing] saves a filing: for every
    environment, request and state, the call returns [False] or raises
    [AttributeError], never [True]; all it does to the outside is send
    requests (no pause, no directory, no file), and it leaves the output
    roots as they were. *)
Theorem X6_download_filing_never_saves (env : Env) (ticker filing_type : string)
  (year quarter : option Z) (download_all : bool) (w : World) :
  (fst (SECFilingDownloader.download_filing env ticker filing_type year quarter
          download_all w) = Ret false
   \/ fst (SECFilingDownloader.download_filing env ticker filing_type year quarter
             download_all w) = Raise AttributeError)
  /\ (exists gets : list event,
        trace (snd (SECFilingDownloader.download_filing env ticker filing_type year
                      quarter download_all w))
        = (trace w ++ gets)%list
        /\ List.forallb is_get gets = true
        /\ (List.length gets <= 2)%nat)
  /\ output_folder_10k
       (self (snd (SECFilingDownloader.download_filing env ticker filing_type year
                     quarter download_all w)))
     = output_folder_10k (self w)
  /\ output_folder_10q
       (self (snd (SECFilingDownloader.download_filing env ticker filing_type year
                     quarter download_all w)))
     = output_folder_10q (self w).
Proof.
  destruct (download_filing_effects env ticker filing_type year quarter download_all w)
    as (Hr & [_ [Hk Hq]] & _).
  split; [exact Hr|]. split; [|split; assumption].
  unfold SECFilingDownloader.download_filing.
  destruct (negb (SECFilingDownloader.valid_filing_type filing_type));
    [exists []; cbn [snd]; rewrite app_nil_r; repeat split; simpl; lia|].
  destruct (String.eqb filing_type "10-Q" && _);
    [exists []; cbn [snd]; rewrite app_nil_r; repeat split; simpl; lia|].
  assert (Hc : exists g1, trace (snd (SECFilingDownloader._get_cik env ticker w))
                          = (trace w ++ g1)%list
                          /\ List.forallb is_get g1 = true /\ (List.length g1 <= 1)%nat).
  { destruct (get_cik_cases env ticker w) as [(c & _ & ->) | [[_ ->] | (n & _ & ->)]].
    - exists []. cbn [snd]. rewrite app_nil_r. repeat split. simpl. lia.
    - eexists [_]. cbn [snd log trace]. repeat split. simpl. lia.
    - eexists [_]. cbn [snd log trace set_cik_lookup]. repeat split. simpl. lia. }
  destruct Hc as (g1 & E1 & F1 & L1).
  destruct (SECFilingDownloader._get_cik env ticker w) as [[cik|] w1]; cbn [snd] in E1;
    [|exists g1; cbn [snd]; repeat split; try assumption; lia].
  destruct (negb (Py.truthy (Some cik)));
    [exists g1; cbn [snd]; repeat split; try assumption; lia|].
  pose proof (get_filings_metadata_world env cik filing_type w1) as Hw2.
  destruct (SECFilingDownloader._get_filings_metadata env cik filing_type w1)
    as [[|f fs] w2]; cbn [snd] in Hw2; subst w2;
    cbn [snd SECFilingDownloader.current_year log trace];
    exists (g1 ++ [Get (SECFilingDownloader.SEC_EDGAR_SUBMISSIONS cik)])%list;
    (split; [rewrite E1; now rewrite app_assoc|]);
    (split; [rewrite forallb_app, F1; reflexivity|]);
    rewrite length_app; simpl; lia.
Qed.

(** X7. Whatever the environment, a batch only sends requests and either
    raises [AttributeError] or returns a mapping in which every entry is
    [False] and in which every unit of the batch has its entry: the key
    [SYMBOL-TYPE-all] under [download_all], one key [SYMBOL-TYPE-YEAR]
    per year when years are given, the key [SYMBOL-TYPE] otherwise. *)
Theorem X7_download_batch_outcome (env : Env) (tickers filing_types : list string)
  (years : option (list Z)) (download_all : bool) (w : World) :
  only_requests w
    (snd (SECFilingDownloader.download_batch env tickers filing_types years download_all w))
  /\ match fst (SECFilingDownloader.download_batch env tickers filing_types years
                  download_all w) with
     | Ret results =>
         (forall key ok, results !! key = Some ok -> ok = false)
         /\ (forall ticker filing_type key,
               In ticker tickers -> In filing_type filing_types ->
               In key (unit_keys years download_all ticker filing_type) ->
               results !! key = Some false)
     | Raise e => e = AttributeError
     end.
Proof.
  destruct (download_batch_post env tickers filing_types years download_all w)
    as (Hreq & _ & H).
  split; [exact Hreq|].
  destruct (fst (SECFilingDownloader.download_batch env tickers filing_types years
                   download_all w)) as [m|e]; [|exact H].
  destruct H as (Hf & _ & Hkeys). split; [exact Hf|].
  intros ticker filing_type key Ht Hft Hk. apply Hkeys.
  apply in_concat. eexists. split.
  - apply in_map_iff. exists ticker. split; [reflexivity | exact Ht].
  - apply in_concat. eexists. split; [|exact Hk].
    apply in_map_iff. exists filing_type. split; [reflexivity | exact Hft].
Qed.

(** X8. [download_sec_filings] raises [ValueError] when none of the three
    folders is given. Every other exception is the one of a [mkdir] of a
    root that failed in the constructor, or the [AttributeError] of the
    batch; so when every [mkdir] succeeds, [ValueError] is raised exactly
    when no folder is given. A mapping that is returned has only [False]
    entries, on an object whose table has the expected shape. *)
Theorem X8_download_sec_filings_outcome (env : Env) (tickers : list string)
  (output_folder_10k output_folder_10q output_folder : option string)
  (filing_types : list string) (years : option (list Z)) (download_all : bool)
  (tr : list event) :
  (output_folder_10k = None /\ output_folder_10q = None /\ output_folder = None ->
   download_sec_filings env tickers output_folder_10k output_folder_10q output_folder
     filing_types years download_all tr = Raise ValueError)
  /\ match download_sec_filings env tickers output_folder_10k output_folder_10q
             output_folder filing_types years download_all tr with
     | Ret (results, w) =>
         (forall key ok, results !! key = Some ok -> ok = false)
         /\ table_ok (cik_lookup (self w))
     | Raise e =>
         (e = ValueError
          /\ output_folder_10k = None /\ output_folder_10q = None
          /\ output_folder = None)
         \/ (exists past p, fs_ok env past (Mkdir p) = false
                            /\ e = fs_error env past (Mkdir p))
         \/ e = AttributeError
     end
  /\ ((forall past e, fs_ok env past e = true) ->
      (download_sec_filings env tickers output_folder_10k output_folder_10q output_folder
         filing_types years download_all tr = Raise ValueError
       <-> output_folder_10k = None /\ output_folder_10q = None
           /\ output_folder = None)).
Proof.
  assert (Hnone : output_folder_10k = None /\ output_folder_10q = None
                  /\ output_folder = None ->
                  download_sec_filings env tickers output_folder_10k output_folder_10q
                    output_folder filing_types years download_all tr = Raise ValueError)
    by (intros (-> & -> & ->); reflexivity).
  assert (Hout :
    match download_sec_filings env tickers output_folder_10k output_folder_10q
            output_folder filing_types years download_all tr with
    | Ret (results, w) =>
        (forall key ok, results !! key = Some ok -> ok = false)
        /\ table_ok (cik_lookup (self w))
    | Raise e =>
        (e = ValueError
         /\ output_folder_10k = None /\ output_folder_10q = None
         /\ output_folder = None)
        \/ (exists past p, fs_ok env past (Mkdir p) = false
                           /\ e = fs_error env past (Mkdir p))
        \/ e = AttributeError
    end).
  { unfold download_sec_filings.
    pose proof (init_outcome env output_folder_10k output_folder_10q output_folder tr)
      as Hi.
    pose proof (fun w0 => init_table_ok env output_folder_10k output_folder_10q
                            output_folder tr w0) as Ht.
    destruct (SECFilingDownloader.__init__ env output_folder_10k output_folder_10q
                output_folder tr) as [w0|e].
    - pose proof (download_batch_post env tickers filing_types years download_all w0)
        as (_ & Htab & H).
      destruct (SECFilingDownloader.download_batch env tickers filing_types years
                  download_all w0) as [[m|e] w1]; cbn [fst snd] in *.
      + split; [apply H | apply Htab, (Ht w0 eq_refl)].
      + right. right. exact H.
    - destruct Hi as [Hi | Hi]; [left | right; left; exact Hi].
      unfold SECFilingDownloader.init_folders in Hi.
      destruct output_folder_10k, output_folder_10q, output_folder; try discriminate Hi.
      injection Hi as <-. repeat split. }
  split; [exact Hnone|]. split; [exact Hout|].
  intros Hfs. split; [|exact Hnone].
  intros E. rewrite E in Hout.
  destruct Hout as [(_ & H) | [(past & p & H & _) | H]];
    [exact H | rewrite Hfs in H; discriminate H | discriminate H].
Qed.

(** With a null byte in the folder name the entry point raises
    [ValueError] although a folder is given. *)
Example download_sec_filings_null_byte :
  download_sec_filings Fixture.null_byte_env ["ZT"] None None (Some "a")
    ["10-K"] None false []
  = Raise ValueError.
Proof. reflexivity. Qed.

(* ===================================================================== *)
(** ** The filing index reader *)
(* ===================================================================== *)

Section IndexReader.
Import SECFilingDownloader.

Lemma collect_filings_spec (filing_type : string) (recent : Recent) (forms : list string) :
  forall (i : nat) (f : Filing),
  In f (collect_filings filing_type recent i forms) <->
  exists j : nat,
    forms !! j = Some filing_type
    /\ accessionNumber recent !! (i + j)%nat = Some (accession_number f)
    /\ filingDate recent !! (i + j)%nat = Some (filing_date f)
    /\ reportDate recent !! (i + j)%nat = Some (report_date f)
    /\ form_type f = filing_type.
Proof.
  induction forms as [|form rest IH]; intros i f.
  - split; [intros [] | intros (j & H & _); discriminate H].
  - cbn [collect_filings]. rewrite in_app_iff, IH. split.
    + intros [H | (j & H)].
      * destruct (String.eqb_spec form filing_type) as [->|]; [|destruct H].
        destruct (accessionNumber recent !! i) as [a|] eqn:Ea; [|destruct H].
        destruct (filingDate recent !! i) as [fd|] eqn:Ef; [|destruct H].
        destruct (reportDate recent !! i) as [rd|] eqn:Er; [|destruct H].
        destruct H as [<-|[]]. exists O. rewrite Nat.add_0_r. repeat split; assumption.
      * exists (S j). rewrite <- Nat.add_succ_comm. exact H.
    + intros ([|j] & Hj & Ha & Hd & Hr & Ht).
      * left. cbn in Hj. injection Hj as ->. rewrite String.eqb_refl.
        rewrite Nat.add_0_r in Ha, Hd, Hr. rewrite Ha, Hd, Hr.
        left. destruct f; cbn in *. now subst.
      * right. exists j. rewrite Nat.add_succ_comm. repeat split; assumption.
Qed.

End IndexReader.

(** X9. [_get_filings_metadata] returns exactly the filings read at the
    positions of the [form] array that hold the requested type and for
    which the three other arrays have an entry: a filing is in the result
    if and only if the request was answered with a status outside
    400..599, the body decoded to a [recent] object and there is such a
    position holding its four fields. In every other case (transport
    error, bad status, undecodable body, array too short) nothing is
    returned for that position, and no exception leaves the method. The
    call sends one request and changes nothing else. *)
Theorem X9_index_reader_result (env : Env) (cik filing_type : string) (w : World)
  (f : Filing) :
  (In f (fst (SECFilingDownloader._get_filings_metadata env cik filing_type w)) <->
   exists (status : Z) (body : string) (recent : Recent) (i : nat),
     http_get env (trace w) (SECFilingDownloader.SEC_EDGAR_SUBMISSIONS cik)
     = Some (status, body)
     /\ raise_for_status status = false
     /\ json_recent env body = Some recent
     /\ form recent !! i = Some filing_type
     /\ accessionNumber recent !! i = Some (accession_number f)
     /\ filingDate recent !! i = Some (filing_date f)
     /\ reportDate recent !! i = Some (report_date f)
     /\ form_type f = filing_type)
  /\ snd (SECFilingDownloader._get_filings_metadata env cik filing_type w)
     = log (Get (SECFilingDownloader.SEC_EDGAR_SUBMISSIONS cik)) w.
Proof.
  split; [|apply get_filings_metadata_world].
  unfold SECFilingDownloader._get_filings_metadata, get.
  destruct (http_get env (trace w) (SECFilingDownloader.SEC_EDGAR_SUBMISSIONS cik))
    as [[status body]|].
  - destruct (raise_for_status status) eqn:Es.
    + split; [intros [] | intros (s & b & r & i & [= <- <-] & H & _); congruence].
    + destruct (json_recent env body) as [recent|] eqn:Ej.
      * cbn [fst]. rewrite collect_filings_spec. split.
        -- intros (j & H). exists status, body, recent, j. tauto.
        -- intros (s & b & r & i & [= <- <-] & _ & Hr & H).
           rewrite Ej in Hr. injection Hr as <-. exists i. exact H.
      * split; [intros [] | intros (s & b & r & i & [= <- <-] & _ & H & _); congruence].
  - split; [intros [] | intros (s & b & r & i & H & _); discriminate H].
Qed.


(* ===================================================================== *)
(** ** More on the extractor *)
(* ===================================================================== *)

Section ExtractorProps.
Import SECFilingDownloader Extractor.

Lemma keep_line_content (lines : list string) (line : string) :
  keep_line lines line = (lines ++ if is_content line then [line] else [])%list.
Proof.
  unfold keep_line, is_content.
  destruct (is_schema_ref line); [now rewrite app_nil_r|].
  destruct (is_bare_tag line); [now rewrite app_nil_r | reflexivity].
Qed.

(** The loop over the raw lines, from any state. *)
Lemma clean_loop_filter (raws : list string) : forall (found : bool) (lines : list string),
  snd (fold_left clean_line raws (found, lines)) =
  (lines ++
   List.filter is_content
     (if found
      then List.filter (fun l => negb (is_blank l)) (List.map Py.rstrip raws)
      else from_marker
             (List.filter (fun l => negb (is_blank l)) (List.map Py.rstrip raws))))%list.
Proof.
  induction raws as [|raw raws IH]; intros found lines.
  - destruct found; cbn; now rewrite app_nil_r.
  - cbn [fold_left List.map List.filter]. unfold clean_line at 2.
    fold (is_blank (Py.rstrip raw)).
    destruct (is_blank (Py.rstrip raw)); cbn [negb]; [apply IH|].
    destruct found; cbn [negb].
    + rewrite IH, keep_line_content. cbn [List.filter].
      rewrite <- app_assoc. destruct (is_content (Py.rstrip raw)); reflexivity.
    + cbn [from_marker].
      destruct (Py.contains START_MARKER (Py.rstrip raw)); [|apply IH].
      rewrite IH, keep_line_content. cbn [List.filter].
      rewrite <- app_assoc. destruct (is_content (Py.rstrip raw)); reflexivity.
Qed.

Lemma from_marker_incl (lines : list string) (l : string) :
  In l (from_marker lines) -> In l lines.
Proof.
  induction lines as [|x lines IH]; [intros []|]. cbn [from_marker].
  destruct (Py.contains START_MARKER x); [tauto|]. intros H. right. now apply IH.
Qed.

Lemma clean_lines_elements (raws : list string) (l : string) :
  In l (clean_lines raws) ->
  exists raw, In raw raws /\ l = Py.rstrip raw /\ is_blank l = false
              /\ is_content l = true.
Proof.
  unfold clean_lines. rewrite clean_loop_filter. cbn [app].
  intros H. apply List.filter_In in H as [H Hc].
  apply from_marker_incl, List.filter_In in H as [H Hb].
  apply List.in_map_iff in H as (raw & <- & Hraw).
  exists raw. repeat split; try assumption. now destruct (is_blank (Py.rstrip raw)).
Qed.

(** *** Line feeds in the cleaned text *)

Lemma split_no_nl (s : string) :
  List.Forall (fun l => no_nl l = true) (Py.split Py.nl s).
Proof.
  induction s as [|c r IH]; [repeat constructor|]. cbn [Py.split].
  destruct (Ascii.eqb c Py.nl) eqn:E; [constructor; [reflexivity | exact IH]|].
  destruct (Py.split Py.nl r) as [|h t].
  - repeat constructor. cbn [no_nl]. now rewrite E.
  - inversion IH as [|? ? Hh Ht]; subst. constructor; [|exact Ht].
    cbn [no_nl]. now rewrite E, Hh.
Qed.

Lemma rstrip_no_nl (s : string) : no_nl s = true -> no_nl (Py.rstrip s) = true.
Proof.
  induction s as [|c r IH]; [reflexivity|]. cbn [no_nl]. intros H.
  apply andb_true_iff in H as [Hc Hr]. rewrite rstrip_cons.
  specialize (IH Hr). destruct (Py.rstrip r) as [|c' r'].
  - destruct (Py.is_space c); [reflexivity|]. cbn [no_nl]. now rewrite Hc.
  - cbn [no_nl] in *. now rewrite Hc, IH.
Qed.

Lemma no_nl_leads (l : string) : no_nl l = true -> l <> "" -> leads_text l.
Proof.
  destruct l as [|c r]; [contradiction|]. cbn [no_nl leads_text]. intros H _.
  apply andb_true_iff in H as [H _]. now destruct (Ascii.eqb c Py.nl).
Qed.

Lemma no_nl_no_nl2 (l : string) : no_nl l = true -> Py.contains NL2 l = false.
Proof.
  induction l as [|c r IH]; [reflexivity|]. cbn [no_nl]. intros H.
  apply andb_true_iff in H as [Hc Hr]. cbn [Py.contains]. rewrite (IH Hr), orb_false_r.
  cbn [Py.startswith NL2]. rewrite Ascii.eqb_sym.
  destruct (Ascii.eqb c Py.nl); [discriminate Hc | reflexivity].
Qed.

Lemma glue_lines (l t : string) :
  no_nl l = true -> l <> "" -> Py.contains NL2 t = false -> leads_text t ->
  Py.contains NL2 (l ++ Py.NL ++ t) = false /\ leads_text (l ++ Py.NL ++ t).
Proof.
  intros Hl Hne Ht Hlead. split.
  - clear Hne. induction l as [|c r IH].
    + change ("" ++ Py.NL ++ t) with (String Py.nl t).
      cbn [Py.contains]. rewrite Ht, orb_false_r.
      destruct t as [|c' t']; [destruct Hlead|]. cbn [leads_text] in Hlead.
      cbn [Py.startswith NL2]. rewrite Ascii.eqb_refl, (Ascii.eqb_sym Py.nl c'), Hlead.
      reflexivity.
    + cbn [no_nl] in Hl. apply andb_true_iff in Hl as [Hc Hr].
      change (String c r ++ Py.NL ++ t) with (String c (r ++ Py.NL ++ t)).
      cbn [Py.contains]. rewrite (IH Hr), orb_false_r.
      cbn [Py.startswith NL2]. rewrite Ascii.eqb_sym.
      destruct (Ascii.eqb c Py.nl); [discriminate Hc | reflexivity].
  - destruct l as [|c r]; [contradiction|]. now apply (no_nl_leads (String c r)).
Qed.

Lemma join_cons2 (sep p q : string) (rest : list string) :
  Py.join sep (p :: q :: rest) = p ++ sep ++ Py.join sep (q :: rest).
Proof. reflexivity. Qed.

Lemma join_no_nl2 (lines : list string) :
  List.Forall (fun l => no_nl l = true /\ l <> "") lines ->
  Py.contains NL2 (Py.join Py.NL lines) = false
  /\ (lines <> [] -> leads_text (Py.join Py.NL lines)).
Proof.
  induction 1 as [|l lines [Hl Hne] Hrest IH]; [split; [reflexivity | congruence]|].
  destruct lines as [|q rest].
  - cbn [Py.join]. split; [now apply no_nl_no_nl2 | intros _; now apply no_nl_leads].
  - rewrite join_cons2. destruct IH as [IH1 IH2].
    destruct (glue_lines l (Py.join Py.NL (q :: rest)) Hl Hne IH1 (IH2 ltac:(discriminate)))
      as [G1 G2].
    split; [exact G1 | intros _; exact G2].
Qed.

Lemma contains_nl3_nl2 (s : string) :
  Py.contains NL2 s = false -> Py.contains Py.NL3 s = false.
Proof.
  induction s as [|c r IH]; [reflexivity|]. cbn [Py.contains]. intros H.
  apply orb_false_iff in H as [Hs Hr]. rewrite (IH Hr), orb_false_r.
  cbn [Py.startswith NL2 Py.NL3] in *.
  destruct (Ascii.eqb Py.nl c); [|reflexivity]. cbn [andb] in *.
  destruct r as [|c2 r2]; [reflexivity|].
  destruct (Ascii.eqb Py.nl c2); [discriminate Hs | reflexivity].
Qed.

Lemma collapse_id (s : string) : Py.contains Py.NL3 s = false -> collapse s = s.
Proof.
  intros H. unfold collapse. destruct (String.length s); [reflexivity|].
  cbn [collapse_loop]. now rewrite H.
Qed.

Lemma collapse_loop_length (k : nat) : forall s : string,
  (String.length (collapse_loop k s) <= String.length s)%nat.
Proof.
  induction k as [|k IH]; intros s; [reflexivity|].
  cbn [collapse_loop]. destruct (Py.contains Py.NL3 s); [|reflexivity].
  destruct (replace_nl3_shrinks _ s (le_n _)) as [Hle _].
  etransitivity; [apply IH | exact Hle].
Qed.

Lemma is_blank_nonempty (l : string) : is_blank l = false -> l <> "".
Proof. intros H ->. discriminate H. Qed.

Lemma cleaned_lines_shape (text : string) :
  List.Forall (fun l => no_nl l = true /\ l <> "") (clean_lines (Py.split Py.nl text)).
Proof.
  apply List.Forall_forall. intros l Hin.
  apply clean_lines_elements in Hin as (raw & Hraw & -> & Hb & _).
  split; [|now apply is_blank_nonempty].
  apply rstrip_no_nl.
  pose proof (split_no_nl text) as Hs. rewrite List.Forall_forall in Hs. now apply Hs.
Qed.

End ExtractorProps.

(** X10. A document that the extractor chooses is one of the links of the
    listing and passes the code's filter: it is not empty, points into
    the archive, has [.htm] in its lowercased target, has no [index] in
    its file name and no [/search] in its path. An exhibit or a short
    [r] file is chosen only when no candidate of the listing is
    preferred. *)
Theorem X10_chosen_document_is_candidate (hrefs : list string) (main_doc : string) :
  Extractor.select_main_doc hrefs = Some main_doc ->
  In main_doc hrefs
  /\ Extractor.candidate main_doc = true
  /\ main_doc <> ""
  /\ (Extractor.preferred main_doc = true
      \/ forall h, In h hrefs -> Extractor.candidate h = true ->
                   Extractor.preferred h = false).
Proof.
  rewrite select_main_doc_rule. unfold Extractor.select_rule. intros H.
  assert (Hin : In main_doc (List.filter Extractor.candidate hrefs)
                /\ (Extractor.preferred main_doc = true
                    \/ List.find Extractor.preferred
                         (List.filter Extractor.candidate hrefs) = None)).
  { destruct (List.find Extractor.preferred (List.filter Extractor.candidate hrefs))
      as [h|] eqn:Ep.
    - injection H as <-. apply List.find_some in Ep. tauto.
    - split; [|now right].
      destruct (List.find Extractor.named_r1 (List.filter Extractor.candidate hrefs))
        as [h|] eqn:Er.
      + injection H as <-. apply List.find_some in Er. tauto.
      + destruct (List.filter Extractor.candidate hrefs); [discriminate H|].
        injection H as <-. now left. }
  destruct Hin as [Hin Hpref]. apply List.filter_In in Hin as [Hin Hc].
  split; [exact Hin|]. split; [exact Hc|]. split; [now apply candidate_nonempty|].
  destruct Hpref as [Hp|Hnone]; [now left | right].
  intros h Hh Hch.
  apply (List.find_none _ _ Hnone h).
  apply List.filter_In. split; assumption.
Qed.

Lemma X10_chosen_document_is_candidate_witness :
  In "/Archives/edgar/data/1234/000000123422000001/zt-10k.htm" Fixture.listing.
Proof.
  apply (X10_chosen_document_is_candidate Fixture.listing
           "/Archives/edgar/data/1234/000000123422000001/zt-10k.htm").
  vm_compute. reflexivity.
Defined.

(** X11. The cleaned lines are, in order: the right-stripped, non-blank
    lines of the text, from the first of them that contains
    [UNITED STATES] on, without the schema references and the bare
    prefixed tokens. *)
Theorem X11_clean_lines_is_filter (raws : list string) :
  Extractor.clean_lines raws
  = List.filter is_content
      (from_marker
         (List.filter (fun line => negb (is_blank line)) (List.map Py.rstrip raws))).
Proof. unfold Extractor.clean_lines. now rewrite clean_loop_filter. Qed.

(** X12. In the cleaned text of a document no two line feeds are adjacent
    (every kept line is non-empty and free of line feeds), so the loop
    that collapses runs of three line feeds never changes it: the cleaned
    text is the kept lines joined by single line feeds. *)
Theorem X12_blank_line_loop_is_idle (text : string) :
  Py.contains NL2 (Py.join Py.NL (Extractor.clean_lines (Py.split Py.nl text))) = false
  /\ Extractor.clean_text text
     = Py.join Py.NL (Extractor.clean_lines (Py.split Py.nl text)).
Proof.
  destruct (join_no_nl2 _ (cleaned_lines_shape text)) as [H _].
  split; [exact H|]. unfold Extractor.clean_text.
  apply collapse_id, contains_nl3_nl2, H.
Qed.

(** X13. On any string the collapsing loop comes to its end within
    [len(cleaned)] rounds (more rounds give the same result); the result
    has no run of three line feeds, is never longer than the input and is
    the input itself when that has no such run. *)
Theorem X13_collapse_loop_ends (cleaned : string) (fuel : nat) :
  (String.length cleaned <= fuel)%nat ->
  Extractor.collapse_loop fuel cleaned = Extractor.collapse cleaned
  /\ Py.contains Py.NL3 (Extractor.collapse cleaned) = false
  /\ (String.length (Extractor.collapse cleaned) <= String.length cleaned)%nat
  /\ (Py.contains Py.NL3 cleaned = false -> Extractor.collapse cleaned = cleaned).
Proof.
  intros Hfuel. split; [now apply collapse_loop_more_fuel|].
  split; [apply collapse_stable|]. split; [|apply collapse_id].
  apply collapse_loop_length.
Qed.

Lemma X13_collapse_loop_ends_witness :
  Extractor.collapse_loop 9 ("a" ++ Py.NL3 ++ Py.NL3 ++ "b") = "a" ++ NL2 ++ "b".
Proof.
  destruct (X13_collapse_loop_ends ("a" ++ Py.NL3 ++ Py.NL3 ++ "b") 9) as [E _].
  - vm_compute. lia.
  - rewrite E. vm_compute. reflexivity.
Defined.

(* ===================================================================== *)
(** ** Requests of a fetch, writes of a download *)
(* ===================================================================== *)

Section FetchSave.
Import SECFilingDownloader.

Lemma fetch_visible_text_shape (env : Env) (cik accession_number : string) (w : World) :
  self (snd (fetch_visible_text env cik accession_number w)) = self w
  /\ trace (snd (fetch_visible_text env cik accession_number w))
     = (trace w ++ Sleep :: Get (dir_url cik accession_number)
                :: document_request env cik accession_number w)%list
  /\ (forall text, fst (fetch_visible_text env cik accession_number w) = Some text ->
      document_request env cik accession_number w <> []).
Proof.
  unfold fetch_visible_text, get, document_request.
  change (trace (log Sleep w)) with (trace w ++ [Sleep])%list.
  destruct (http_get env (trace w ++ [Sleep])%list (dir_url cik accession_number))
    as [[status listing]|];
    [|split; [reflexivity|]; split;
      [cbn [snd log trace]; now rewrite <- ?app_assoc | discriminate]].
  destruct (status =? 200); cbn [negb];
    [|split; [reflexivity|]; split;
      [cbn [snd log trace]; now rewrite <- ?app_assoc | discriminate]].
  destruct (soup_hrefs env listing) as [hrefs|];
    [|split; [reflexivity|]; split;
      [cbn [snd log trace]; now rewrite <- ?app_assoc | discriminate]].
  destruct (Extractor.select_main_doc hrefs) as [main_doc|];
    [|split; [reflexivity|]; split;
      [cbn [snd log trace]; now rewrite <- ?app_assoc | discriminate]].
  destruct (http_get env _ (main_doc_url main_doc)) as [[doc_status page]|];
    [|split; [reflexivity|]; split;
      [cbn [snd log trace]; now rewrite <- ?app_assoc | discriminate]].
  destruct (negb (doc_status =? 200));
    (split; [reflexivity|]; split;
     [cbn [snd log trace]; now rewrite <- ?app_assoc | discriminate]).
Qed.

Lemma fetch_filing_world (env : Env) (cik accession_number : string) (w : World) :
  snd (_fetch_filing_from_edgar env cik accession_number w)
  = snd (fetch_visible_text env cik accession_number w).
Proof.
  unfold _fetch_filing_from_edgar.
  destruct (fetch_visible_text env cik accession_number w) as [[text|] w']; reflexivity.
Qed.





Lemma append_nil_l (s : string) : "" ++ s = s.
Proof. reflexivity. Qed.

Lemma append_cons (c : ascii) (a s : string) : String c a ++ s = String c (a ++ s).
Proof. reflexivity. Qed.

(** Cancelling a suffix of known length. *)
Lemma append_inj_length (a : string) : forall (b x y : string),
  a ++ x = b ++ y -> String.length x = String.length y -> a = b /\ x = y.
Proof.
  induction a as [|c a IH]; intros b x y H Hlen.
  - destruct b as [|c' b]; [now split|].
    exfalso. rewrite append_nil_l in H. rewrite H in Hlen.
    rewrite length_append in Hlen. cbn [String.length] in Hlen. lia.
  - destruct b as [|c' b].
    + exfalso. rewrite append_nil_l in H. rewrite <- H in Hlen.
      rewrite length_append in Hlen. cbn [String.length] in Hlen. lia.
    + rewrite !append_cons in H. injection H as -> H.
      destruct (IH b x y H Hlen) as [-> ->]. now split.
Qed.

End FetchSave.

(** X14. One call of [_fetch_filing_from_edgar] pauses once, then asks
    for the directory of the filing, then sends at most one more request:
    the request for the document chosen from the listing just received,
    sent exactly when that listing came with status 200, could be parsed
    and holds a candidate. It does nothing else to the outside and leaves
    the object as it was. A text is returned only when that second
    request was sent. *)
Theorem X14_fetch_requests (env : Env) (cik accession_number : string) (w : World) :
  self (snd (SECFilingDownloader._fetch_filing_from_edgar env cik accession_number w))
  = self w
  /\ trace (snd (SECFilingDownloader._fetch_filing_from_edgar env cik accession_number w))
     = (trace w ++ Sleep :: Get (SECFilingDownloader.dir_url cik accession_number)
                :: document_request env cik accession_number w)%list
  /\ (document_request env cik accession_number w = []
      \/ exists (listing : string) (hrefs : list string) (main_doc : string),
           http_get env (trace w ++ [Sleep])%list
             (SECFilingDownloader.dir_url cik accession_number) = Some (200, listing)
           /\ soup_hrefs env listing = Some hrefs
           /\ Extractor.select_main_doc hrefs = Some main_doc
           /\ document_request env cik accession_number w
              = [Get (SECFilingDownloader.main_doc_url main_doc)])
  /\ (forall text,
        fst (SECFilingDownloader._fetch_filing_from_edgar env cik accession_number w)
        = Some text ->
        document_request env cik accession_number w <> []).
Proof.
  rewrite fetch_filing_world.
  destruct (fetch_visible_text_shape env cik accession_number w) as (Hself & Htr & Hsome).
  split; [exact Hself|]. split; [exact Htr|]. split.
  - unfold document_request.
    destruct (http_get env (trace w ++ [Sleep])%list
                (SECFilingDownloader.dir_url cik accession_number))
      as [[status listing]|]; [|now left].
    destruct (Z.eqb_spec status 200) as [->|]; [|now left].
    destruct (soup_hrefs env listing) as [hrefs|] eqn:Es; [|now left].
    destruct (Extractor.select_main_doc hrefs) as [main_doc|] eqn:E; [|now left].
    right. exists listing, hrefs, main_doc. repeat split; assumption.
  - intros text H. unfold SECFilingDownloader._fetch_filing_from_edgar in H.
    destruct (SECFilingDownloader.fetch_visible_text env cik accession_number w)
      as [[t|] w1]; [|discriminate H].
    now apply (Hsome t).
Qed.

(** On the fixture the second request is the one for [zt-10k.htm]. *)
Example fetch_requests_fixture :
  trace (snd (SECFilingDownloader._fetch_filing_from_edgar Fixture.env "0000001234"
                "0000001234-22-000001" {| self := self Fixture.world; trace := [] |}))
  = [Sleep;
     Get "https://www.sec.gov/Archives/edgar/data/1234/000000123422000001/";
     Get "https://www.sec.gov/Archives/edgar/data/1234/000000123422000001/zt-10k.htm"].
Proof. vm_compute. reflexivity. Qed.

(** X15. File names do not collide for well-formed dates: if two filings
    of one type get the same name, their filing years have the same
    number of characters and, for quarterly filings, both months are
    within 1..12, then they are filings of the same symbol (up to case),
    the same filing year and the same quarter. *)
Theorem X15_file_names_do_not_collide (filing_type ticker1 ticker2 name : string)
  (f1 f2 : Filing) :
  SECFilingDownloader.filing_filename filing_type ticker1 f1 = Ret name ->
  SECFilingDownloader.filing_filename filing_type ticker2 f2 = Ret name ->
  String.length (Py.slice_to 4 (filing_date f1))
  = String.length (Py.slice_to 4 (filing_date f2)) ->
  (forall m, Py.int (Py.slice 5 7 (report_date f1)) = Some m -> 1 <= m <= 12) ->
  (forall m, Py.int (Py.slice 5 7 (report_date f2)) = Some m -> 1 <= m <= 12) ->
  Py.upper ticker1 = Py.upper ticker2
  /\ Py.slice_to 4 (filing_date f1) = Py.slice_to 4 (filing_date f2)
  /\ (filing_type <> "10-K" ->
      option_map SECFilingDownloader.quarter_num (Py.int (Py.slice 5 7 (report_date f1)))
      = option_map SECFilingDownloader.quarter_num
          (Py.int (Py.slice 5 7 (report_date f2)))).
Proof.
  unfold SECFilingDownloader.filing_filename.
  intros H1 H2 Hlen Hm1 Hm2.
  destruct (String.eqb_spec filing_type "10-K") as [Hk|Hk].
  - injection H1 as <-. injection H2 as H2.
    rewrite !append_nil_l in H2.
    apply append_inj_length in H2 as [Ht H2];
      [|rewrite !length_append; cbn [String.length]; lia].
    injection H2 as H2. rewrite !append_nil_l in H2.
    apply append_inj_length in H2 as [Hy _]; [|reflexivity].
    split; [congruence|]. split; [congruence | contradiction].
  - destruct (Py.int (Py.slice 5 7 (report_date f1))) as [m1|]; [|discriminate H1].
    destruct (Py.int (Py.slice 5 7 (report_date f2))) as [m2|]; [|discriminate H2].
    injection H1 as <-. injection H2 as H2.
    assert (Q : forall m, 1 <= m <= 12 ->
                  String.length (Py.str (SECFilingDownloader.quarter_num m)) = 1%nat
                  /\ (SECFilingDownloader.quarter_num m = 1
                      \/ SECFilingDownloader.quarter_num m = 2
                      \/ SECFilingDownloader.quarter_num m = 3
                      \/ SECFilingDownloader.quarter_num m = 4)).
    { intros m Hm. destruct (quarter_of_month m Hm) as [E|[E|[E|E]]];
        change (SECFilingDownloader.quarter_num m) with (SECFilingDownloader.filing_quarter m);
        rewrite E; (split; [reflexivity | tauto]). }
    destruct (Q m1 (Hm1 m1 eq_refl)) as [L1 D1].
    destruct (Q m2 (Hm2 m2 eq_refl)) as [L2 D2].
    rewrite !append_nil_l in H2.
    apply append_inj_length in H2 as [Ht H2];
      [|rewrite !length_append, L1, L2; cbn [String.length]; lia].
    injection H2 as H2. rewrite !append_nil_l in H2.
    apply append_inj_length in H2 as [Hq H2];
      [|rewrite !length_append; cbn [String.length]; lia].
    apply append_inj_length in H2 as [Hy _]; [|reflexivity].
    split; [congruence|]. split; [congruence|]. intros _. cbn [option_map]. f_equal.
    destruct D1 as [E1|[E1|[E1|E1]]], D2 as [E2|[E2|[E2|E2]]];
      rewrite E1, E2 in *; try reflexivity; discriminate Hq.
Qed.

Lemma X15_file_names_do_not_collide_witness :
  Py.upper "zt" = Py.upper "ZT".
Proof.
  apply (X15_file_names_do_not_collide "10-Q" "zt" "ZT" "10Q-ZT-Q22022.txt"
           Fixture.quarterly_q2
           {| accession_number := "0000001234-22-000009"; filing_date := "2022-07-29";
              report_date := "2022-05-31"; form_type := "10-Q" |}).
  - vm_compute. reflexivity.
  - vm_compute. reflexivity.
  - reflexivity.
  - intros m H. vm_compute in H. injection H as <-. lia.
  - intros m H. vm_compute in H. injection H as <-. lia.
Defined.

(** Without the condition on the year strings two different symbols can
    get one name. *)
Example file_name_collision :
  SECFilingDownloader.filing_filename "10-K" "x"
    {| accession_number := "a"; filing_date := "1-20"; report_date := ""; form_type := "10-K" |}
  = SECFilingDownloader.filing_filename "10-K" "x-1"
      {| accession_number := "b"; filing_date := "20"; report_date := ""; form_type := "10-K" |}.
Proof. reflexivity. Qed.



(** X17. For whatever current year is supplied to lines 243-275, and
    without [download_all]: the selection is the sub-list, in input
    order, of the filings whose filing year is read by [int] and lies in
    the requested years (the given year, or the ten years ending with the
    supplied one) and, for a type other than [10-K] with a quarter given,
    whose month is read by [int] and falls in that quarter. A filing
    whose needed date does not read is left out, without an exception. *)
Theorem X17_selection_is_filter (current_year : Z) (filing_type : string)
  (year quarter : option Z) (filings : list Filing) (f : Filing) :
  SECFilingDownloader.select_filings current_year filing_type year quarter false filings
  = List.filter
      (SECFilingDownloader.included filing_type quarter
         (SECFilingDownloader.years_to_include current_year year))
      filings
  /\ (In f (SECFilingDownloader.select_filings current_year filing_type year quarter
              false filings) <->
      In f filings
      /\ (exists fy : Z,
             Py.int (Py.slice_to 4 (filing_date f)) = Some fy
             /\ match year with
                | Some y => fy = y
                | None => current_year - 9 <= fy <= current_year
                end)
      /\ (filing_type <> "10-K" ->
          forall q : Z, quarter = Some q ->
            exists m : Z,
              Py.int (Py.slice 5 7 (report_date f)) = Some m /\ (m - 1) / 3 + 1 = q)).
Proof. split; [apply select_filings_filter | apply select_filings_spec]. Qed.

(* ===================================================================== *)
(** ** The identifier between the table and the directory address *)
(* ===================================================================== *)

From Stdlib Require DecimalFacts DecimalPos DecimalZ.

Section IdentifierRoundTrip.
Import SECFilingDownloader.

Lemma digits_of_uint (d : Decimal.uint) : forall acc : Z,
  Py.digits (NilEmpty.string_of_uint d) acc true = Some (uint_val d acc).
Proof.
  induction d; intros acc; cbn [NilEmpty.string_of_uint uint_val];
    [reflexivity | exact (IHd _) ..].
Qed.

Lemma uint_val_pos (d : Decimal.uint) : forall acc : positive,
  uint_val d (Z.pos acc) = Z.pos (Pos.of_uint_acc d acc).
Proof.
  induction d; intros acc; cbn [uint_val Pos.of_uint_acc]; [reflexivity|..];
    rewrite <- IHd; f_equal; lia.
Qed.

Lemma uint_val_zero (d : Decimal.uint) : uint_val d 0 = Z.of_N (Pos.of_uint d).
Proof.
  induction d; cbn [uint_val Pos.of_uint]; [reflexivity | exact IHd | ..];
    cbn [Z.mul Z.add Z.of_N]; apply uint_val_pos.
Qed.

Lemma all_digits_of_uint (d : Decimal.uint) :
  all_digits (NilEmpty.string_of_uint d) = true.
Proof. induction d; cbn; [reflexivity | exact IHd ..]. Qed.

Lemma all_digits_app (a b : string) :
  all_digits (a ++ b) = all_digits a && all_digits b.
Proof.
  induction a as [|c a IH]; [reflexivity|].
  rewrite append_cons. cbn [all_digits]. now rewrite IH, andb_assoc.
Qed.

Lemma all_digits_zeros (k : nat) : all_digits (Py.zeros k) = true.
Proof. induction k as [|k IH]; [reflexivity | exact IH]. Qed.

(** The decimal numeral of a positive number begins with a digit other
    than zero. *)
Lemma to_uint_head (p : positive) :
  exists (c : ascii) (r : string),
    NilEmpty.string_of_uint (Pos.to_uint p) = String c r
    /\ is_digit c = true /\ Ascii.eqb c "0" = false.
Proof.
  assert (Hnorm : Decimal.unorm (Pos.to_uint p) = Pos.to_uint p).
  { rewrite <- (DecimalPos.Unsigned.to_of (Pos.to_uint p)).
    now rewrite DecimalPos.Unsigned.of_to. }
  pose proof (DecimalPos.Unsigned.to_uint_nonzero p) as Hnz.
  pose proof (DecimalPos.Unsigned.to_uint_nonnil p) as Hnn.
  destruct (Pos.to_uint p) as [|d|d|d|d|d|d|d|d|d|d] eqn:E;
    [contradiction | | cbn; eauto ..].
  exfalso. rewrite DecimalFacts.unorm_D0 in Hnorm. unfold Decimal.unorm in Hnorm.
  destruct (Decimal.nzhead d) eqn:En;
    try (apply (DecimalFacts.nzhead_nonzero d d); rewrite En; exact Hnorm).
  apply Hnz. symmetry. exact Hnorm.
Qed.

Lemma lstrip_zeros_pad (k : nat) (s : string) :
  Py.lstrip_zeros (Py.zeros k ++ s) = Py.lstrip_zeros s.
Proof. induction k as [|k IH]; [reflexivity | exact IH]. Qed.

Lemma digits_pad (k : nat) (s : string) (c : ascii) (r : string) :
  s = String c r -> is_digit c = true ->
  Py.digits (Py.zeros k ++ s) 0 false = Py.digits s 0 true.
Proof.
  intros -> Hc. destruct (digit_facts c Hc) as (_ & _ & _ & Hu & d & Hd & _).
  assert (G : forall b, Py.digits (String c r) 0 b = Py.digits (String c r) 0 true)
    by (intros b; cbn [Py.digits]; now rewrite Hu, Hd).
  assert (P : forall j b, Py.digits (Py.zeros j ++ String c r) 0 b
                          = Py.digits (String c r) 0 true).
  { induction j as [|j IH]; intros b; [apply G|].
    cbn [Py.zeros]. rewrite append_cons. cbn [Py.digits Ascii.eqb Bool.eqb Py.digit_val].
    apply IH. }
  apply P.
Qed.

(** The identifier written for [n >= 0] and read back. *)
Lemma padded_identifier (n : Z) :
  0 <= n ->
  Py.int (Py.zfill 10 (Py.str n)) = Some n
  /\ match Py.lstrip_zeros (Py.zfill 10 (Py.str n)) with
     | EmptyString => "0"
     | s => s
     end = Py.str n.
Proof.
  intros Hn. destruct n as [|p|p]; [split; reflexivity | | lia].
  destruct (to_uint_head p) as (c & r & Es & Hc & Hz).
  assert (Estr : Py.str (Z.pos p) = String c r).
  { unfold Py.str. cbn [Z.to_int NilZero.string_of_int]. unfold NilZero.string_of_uint.
    pose proof (DecimalPos.Unsigned.to_uint_nonnil p) as Hnn.
    destruct (Pos.to_uint p); [contradiction | exact Es ..]. }
  destruct (digit_facts c Hc) as (Hsp & Hm & Hp & _).
  assert (Ez : Py.zfill 10 (Py.str (Z.pos p))
               = Py.zeros (10 - String.length (String c r)) ++ String c r).
  { rewrite Estr. unfold Py.zfill. now rewrite Hm, Hp. }
  rewrite Ez. set (k := (10 - String.length (String c r))%nat). split.
  - assert (Hall : all_digits (Py.zeros k ++ String c r) = true).
    { rewrite all_digits_app, all_digits_zeros. rewrite <- Es. apply all_digits_of_uint. }
    unfold Py.int. rewrite (rstrip_digits _ Hall).
    assert (Hfirst : exists c' r', Py.zeros k ++ String c r = String c' r'
                                   /\ is_digit c' = true).
    { destruct k as [|k']; [exists c, r; now split|].
      exists "0"%char, (Py.zeros k' ++ String c r). split; reflexivity. }
    destruct Hfirst as (c' & r' & Ef & Hc').
    destruct (digit_facts c' Hc') as (_ & Hm' & Hp' & _).
    rewrite Ef. cbn [Py.lstrip_c]. rewrite (digit_not_space_c c' Hc'), Hm', Hp'.
    rewrite <- Ef.
    rewrite (digits_pad k (String c r) c r eq_refl Hc).
    rewrite <- Es, digits_of_uint, uint_val_zero, DecimalPos.Unsigned.of_to.
    reflexivity.
  - rewrite lstrip_zeros_pad. cbn [Py.lstrip_zeros]. rewrite Hz. now rewrite Estr.
Qed.

Lemma remove_char_gone (x : ascii) (s : string) :
  Py.contains (String x "") (Py.remove_char x s) = false.
Proof.
  induction s as [|c r IH]; [reflexivity|]. cbn [Py.remove_char].
  destruct (Ascii.eqb c x) eqn:E; [exact IH|].
  cbn [Py.contains Py.startswith]. rewrite IH, (Ascii.eqb_sym x c), E. reflexivity.
Qed.

End IdentifierRoundTrip.

(** X18. The padding of the resolver and the stripping of the extractor
    undo each other: for a number [n >= 0], the identifier
    [str(n).zfill(10)] that [_get_cik] and [_load_cik_lookup] store reads
    back as [n], and the directory address built from it carries [n] in
    plain decimal, with the dashes of the accession number removed. *)
Theorem X18_identifier_round_trip (n : Z) (accession_number : string) :
  0 <= n ->
  Py.int (Py.zfill 10 (Py.str n)) = Some n
  /\ SECFilingDownloader.dir_url (Py.zfill 10 (Py.str n)) accession_number
     = "https://www.sec.gov/Archives/edgar/data/" ++ Py.str n ++ "/"
       ++ Py.remove_char "-" accession_number ++ "/"
  /\ Py.contains "-" (Py.remove_char "-" accession_number) = false.
Proof.
  intros Hn. destruct (padded_identifier n Hn) as [Hint Hstrip].
  split; [exact Hint|]. split; [|apply remove_char_gone].
  unfold SECFilingDownloader.dir_url. now rewrite Hstrip.
Qed.

Lemma X18_identifier_round_trip_witness :
  SECFilingDownloader.dir_url (Py.zfill 10 (Py.str 320193)) "0000320193-22-000108"
  = "https://www.sec.gov/Archives/edgar/data/320193/000032019322000108/".
Proof.
  destruct (X18_identifier_round_trip 320193 "0000320193-22-000108") as (_ & E & _).
  - lia.
  - rewrite E. vm_compute. reflexivity.
Defined.

(* ===================================================================== *)
(** ** The constructor and the network; exceptions of the download loop *)
(* ===================================================================== *)

Section ConstructorAndLoop.
Import SECFilingDownloader.

Lemma load_cik_lookup_trace (env : Env) (w : World) :
  trace (_load_cik_lookup env w) = (trace w ++ [Get SEC_EDGAR_CIK_LOOKUP])%list.
Proof.
  unfold _load_cik_lookup, get.
  destruct (http_get env (trace w) SEC_EDGAR_CIK_LOOKUP) as [[status body]|];
    [|reflexivity].
  destruct (raise_for_status status); [reflexivity|].
  destruct (json_tickers env body); reflexivity.
Qed.

Lemma load_cik_lookup_failure (env : Env) (w : World) :
  match http_get env (trace w) SEC_EDGAR_CIK_LOOKUP with
  | None => cik_lookup (self (_load_cik_lookup env w)) = ∅
  | Some (status, body) =>
      if raise_for_status status then cik_lookup (self (_load_cik_lookup env w)) = ∅
      else match json_tickers env body with
           | None => cik_lookup (self (_load_cik_lookup env w)) = ∅
           | Some _ => True
           end
  end.
Proof.
  unfold _load_cik_lookup, get.
  destruct (http_get env (trace w) SEC_EDGAR_CIK_LOOKUP) as [[status body]|];
    [|reflexivity].
  destruct (raise_for_status status); [reflexivity|].
  destruct (json_tickers env body); [exact I | reflexivity].
Qed.


End ConstructorAndLoop.

(** X19. The constructor does not depend on the network: when the folder
    arguments are accepted and the directories can be created, it returns
    an object whatever the table request answers. It has then created the
    given roots, in the order annual, quarterly, and sent exactly one
    request; and when that request fails, answers with a status in
    400..599 or cannot be read, the object starts with an empty table. *)
Theorem X19_constructor_survives_network (env : Env)
  (folder_10k folder_10q folder root_10k root_10q : option string) (tr : list event) :
  SECFilingDownloader.init_folders env folder_10k folder_10q folder
  = Ret (root_10k, root_10q) ->
  (forall past e, fs_ok env past e = true) ->
  exists w : World,
    SECFilingDownloader.__init__ env folder_10k folder_10q folder tr = Ret w
    /\ output_folder_10k (self w) = root_10k
    /\ output_folder_10q (self w) = root_10q
    /\ trace w
       = (tr ++ match root_10k with Some p => [Mkdir p] | None => [] end
             ++ match root_10q with Some p => [Mkdir p] | None => [] end
             ++ [Get SEC_EDGAR_CIK_LOOKUP])%list
    /\ match http_get env
               (tr ++ match root_10k with Some p => [Mkdir p] | None => [] end
                   ++ match root_10q with Some p => [Mkdir p] | None => [] end)%list
               SEC_EDGAR_CIK_LOOKUP with
       | None => cik_lookup (self w) = ∅
       | Some (status, body) =>
           if raise_for_status status then cik_lookup (self w) = ∅
           else match json_tickers env body with
                | None => cik_lookup (self w) = ∅
                | Some _ => True
                end
       end.
Proof.
  intros Hf Hfs. unfold SECFilingDownloader.__init__. rewrite Hf.
  set (m1 := match root_10k with Some p => [Mkdir p] | None => [] end).
  set (m2 := match root_10q with Some p => [Mkdir p] | None => [] end).
  assert (E1 : SECFilingDownloader.mkdir_root env root_10k tr = (Ret tt, (tr ++ m1)%list)).
  { unfold SECFilingDownloader.mkdir_root, m1. destruct root_10k as [p|].
    - now rewrite Hfs.
    - now rewrite app_nil_r. }
  assert (E2 : SECFilingDownloader.mkdir_root env root_10q (tr ++ m1)%list
               = (Ret tt, (tr ++ m1 ++ m2)%list)).
  { unfold SECFilingDownloader.mkdir_root, m2. destruct root_10q as [p|].
    - rewrite Hfs. now rewrite <- app_assoc.
    - now rewrite !app_nil_r. }
  rewrite E1, E2. eexists. split; [reflexivity|].
  destruct (load_cik_lookup_folders env
              {| self := {| output_folder_10k := root_10k; output_folder_10q := root_10q;
                            cik_lookup := ∅ |};
                 trace := (tr ++ m1 ++ m2)%list |}) as [Hk Hq].
  split; [exact Hk|]. split; [exact Hq|]. split.
  - rewrite load_cik_lookup_trace. cbn [trace]. now rewrite <- !app_assoc.
  - apply (load_cik_lookup_failure env
             {| self := {| output_folder_10k := root_10k; output_folder_10q := root_10q;
                           cik_lookup := ∅ |};
                trace := (tr ++ m1 ++ m2)%list |}).
Qed.

Lemma X19_constructor_survives_network_witness :
  exists w : World,
    SECFilingDownloader.__init__ Fixture.long_env (Some "k") None None [] = Ret w
    /\ trace w = [Mkdir "k"; Get SEC_EDGAR_CIK_LOOKUP]
    /\ cik_lookup (self w) = ∅.
Proof.
  destruct (X19_constructor_survives_network Fixture.long_env (Some "k") None None
              (Some "k") None []) as (w & E & _ & _ & Htr & Htab).
  - reflexivity.
  - reflexivity.
  - exists w. split; [exact E|]. split; [exact Htr | exact Htab].
Defined.



(* ===================================================================== *)
(** ** The selection and the write inside [download_filing] *)
(* ===================================================================== *)

Section WholeCall.
Import SECFilingDownloader.





End WholeCall.

(** C4, evaluated on the code. A [download_all] request that passes the
    checks, resolves its symbol and reads a non-empty index does not get
    its list back: [download_filing] raises [AttributeError] at line 241,
    inside the cited lines and before the branch on [download_all], so no
    list of filings is produced and none is handed to the download loop. *)
Theorem C4_select_all_stops_at_current_year (env : Env) (ticker filing_type : string)
  (year quarter : option Z) (w w1 w2 : World)
  (cik : string) (filing : Filing) (filings : list Filing) :
  SECFilingDownloader.valid_filing_type filing_type = true ->
  (filing_type = "10-Q" -> forall q, quarter = Some q ->
     SECFilingDownloader.valid_quarter q = true) ->
  SECFilingDownloader._get_cik env ticker w = (Some cik, w1) ->
  cik <> "" ->
  SECFilingDownloader._get_filings_metadata env cik filing_type w1
  = (filing :: filings, w2) ->
  SECFilingDownloader.download_filing env ticker filing_type year quarter true w
  = (Raise AttributeError, w2)
  /\ trace w2 = (trace w1 ++ [Get (SECFilingDownloader.SEC_EDGAR_SUBMISSIONS cik)])%list.
Proof.
  intros Hv Hq Hcik Hne Hfs. split.
  - now apply download_filing_reaches_current_year with (w1 := w1) (cik := cik)
      (filing := filing) (filings := filings).
  - pose proof (get_filings_metadata_world env cik filing_type w1) as H.
    rewrite Hfs in H. cbn [snd] in H. now subst w2.
Qed.

Lemma C4_select_all_stops_at_current_year_witness :
  fst (SECFilingDownloader.download_filing Fixture.env "ZT" "10-K" None None true
         Fixture.world) = Raise AttributeError.
Proof.
  destruct (C4_select_all_stops_at_current_year Fixture.env "ZT" "10-K" None None
              Fixture.world Fixture.world
              (log (Get (SECFilingDownloader.SEC_EDGAR_SUBMISSIONS "0000001234"))
                 Fixture.world)
              "0000001234" Fixture.annual_2022 []) as [E _].
  - reflexivity.
  - discriminate.
  - vm_compute. reflexivity.
  - discriminate.
  - vm_compute. reflexivity.
  - now rewrite E.
Defined.



(** The same request with a current year supplied to lines 243-317: the
    filing is written where the specification's scenario puts it. *)
Example write_with_year_supplied :
  List.filter (fun e => match e with WriteText _ _ => true | _ => false end)
    (trace (snd (SECFilingDownloader.download_selected Fixture.long_env 2026 "zt" "10-K"
                   "0000001234" (Some 2022) None false [Fixture.annual_2022]
                   {| self := self Fixture.world; trace := [] |})))
  = [WriteText "out/ZT/original/10K-ZT-2022.txt" Fixture.long_text].
Proof. vm_compute. reflexivity. Qed.


